(** * Heat-Equation-Calculator: a shallow embedding of [heating_eqn.py]

    The development follows the class [Heat_Eqn] of the source: the
    constructor, [area], [mat_constants] and [heateqn], the explicit
    finite-difference solver of the one-dimensional heat equation, and
    the two plotting methods [graph_sketcher] and [gif_maker].

    Numbers.  The program computes with Python floats and NumPy float64
    cells.  Every function below is written once, over an interface
    [PyFloat] of the operations the source uses, and the interface has two
    instances:
    - [Binary64.py_float], IEEE-754 binary64 with round-to-nearest-even, the
      arithmetic the program runs with;
    - [Exact.py_float], exact rational arithmetic, the idealisation in which
      the numerical statements (bounds, monotone convergence, counting the
      time samples) are meant.
    Statements about structure (which row is read, which cells are written,
    which exception is raised, what does not influence the result) are
    proved for every instance, hence for binary64.

    Effects.  Python exceptions are the [Raise] outcome of [result]; text
    written to standard output and calls into the plotting methods are
    events collected by the monad [M]; inside the plotting methods, the
    calls into matplotlib, imageio and the file system are collected by
    the monad [Plot]. *)

From Stdlib Require Import ZArith QArith Qround Lia Lqa.
From Stdlib Require Import String Ascii.
From Stdlib Require Import PrimFloat FloatOps SpecFloat.
From stdpp Require Import base list pretty.

Set Default Proof Using "Type".
Open Scope Z_scope.

(** ** Outcomes: Python exceptions *)

Inductive exc : Type :=
| TypeError
| ValueError
| IndexError
| ZeroDivisionError
| OverflowError
(** not an exception of the program: the arithmetic at hand cannot express
    the value the program stores (a NaN in exact arithmetic) *)
| Unrepresentable.

Inductive result (A : Type) : Type :=
| Return (a : A)
| Raise (e : exc).
Arguments Return {A} a.
Arguments Raise {A} e.

Definition rbind {A B} (r : result A) (f : A -> result B) : result B :=
  match r with
  | Return a => f a
  | Raise e => Raise e
  end.

Declare Scope py_scope.
Delimit Scope py_scope with py.
Notation "x <- r ;; k" := (rbind r (fun x => k))
  (at level 100, r at next level, right associativity) : py_scope.
Open Scope py_scope.

(** [for v in l: body] threading a state. *)
Fixpoint for_each {A S} (l : list A) (body : A -> S -> result S) (s : S)
  : result S :=
  match l with
  | [] => Return s
  | v :: l' => s' <- body v s ;; for_each l' body s'
  end.

(** [range(a, b)] *)
Definition range (a b : Z) : list Z :=
  map (fun k => a + Z.of_nat k) (seq 0 (Z.to_nat (b - a))).

(** ** The arithmetic interface *)

Class PyFloat (F : Type) : Type := {
  (** the float64 operations, which never raise *)
  fadd : F -> F -> F;
  fsub : F -> F -> F;
  fmul : F -> F -> F;
  fdiv : F -> F -> F;
  fltb : F -> F -> bool;
  fleb : F -> F -> bool;
  (** [x == 0] *)
  fis_zero : F -> bool;
  (** the sign bit (set for negative numbers and for [-0.0]) *)
  fsignbit : F -> bool;
  (** an exactly representable integer literal *)
  flit : Z -> F;
  (** [float(n)] for a Python int; [OverflowError] when [n] is too large *)
  float_of_int : Z -> result F;
  (** [x ** 2], Python's float power; [OverflowError] when it overflows *)
  pow2 : F -> result F;
  (** [math.ceil(x)]: [ValueError] on NaN, [OverflowError] on infinities *)
  ceil : F -> result Z;
  (** [int(x)], truncation toward zero; raises like [ceil] *)
  int_of_float : F -> result Z;
  (** the float64 NumPy stores for the object [None], when there is one *)
  fnan : option F;
}.

(** Python's true division of floats raises on a zero divisor. *)
Definition py_div `{PyFloat F} (x y : F) : result F :=
  if fis_zero y then Raise ZeroDivisionError else Return (fdiv x y).

(** An optional argument used as a number: [None] is a [TypeError]. *)
Definition number {F} (o : option F) : result F :=
  match o with
  | Some x => Return x
  | None => Raise TypeError
  end.

(** ** Binary64 *)

Module Binary64.

Definition to_Z_with (round : Z -> Z -> Z) (x : float) : result Z :=
  match Prim2SF x with
  | S754_zero _ => Return 0
  | S754_finite s m e =>
      let v := if s then Z.neg m else Z.pos m in
      Return (if 0 <=? e then v * 2 ^ e else round v (2 ^ (- e)))
  | S754_nan => Raise ValueError
  | S754_infinity _ => Raise OverflowError
  end.

Definition ceil (x : float) : result Z :=
  to_Z_with (fun v d => - ((- v) / d)) x.

Definition int_of_float (x : float) : result Z :=
  to_Z_with Z.quot x.

(** Round-to-nearest-even conversion of an integer. *)
Definition of_Z (n : Z) : float :=
  SF2Prim (binary_normalize prec emax n 0 false).

Definition float_of_int (n : Z) : result float :=
  let x := of_Z n in
  if is_infinity x then Raise OverflowError else Return x.

(** [x ** 2] is taken as the correctly rounded square; Python raises
    [OverflowError] when a finite base gives an infinite power. *)
Definition pow2 (x : float) : result float :=
  let y := (x * x)%float in
  if is_finite x && is_infinity y then Raise OverflowError else Return y.

#[global] Instance py_float : PyFloat float := {
  fadd := PrimFloat.add;
  fsub := PrimFloat.sub;
  fmul := PrimFloat.mul;
  fdiv := PrimFloat.div;
  fltb := PrimFloat.ltb;
  fleb := PrimFloat.leb;
  fis_zero := PrimFloat.is_zero;
  fsignbit := PrimFloat.get_sign;
  flit := of_Z;
  float_of_int := float_of_int;
  pow2 := pow2;
  ceil := ceil;
  int_of_float := int_of_float;
  fnan := Some PrimFloat.nan;
}.

End Binary64.

(** ** Exact rational arithmetic *)

Module Exact.

(** Every operation returns the fraction in lowest terms ([Qred]), so
    that values stay small when a run is evaluated; [Qred q == q]. *)
Definition add (a b : Q) : Q := Qred (a + b).
Definition sub (a b : Q) : Q := Qred (a - b).
Definition mul (a b : Q) : Q := Qred (a * b).
Definition div (a b : Q) : Q := Qred (a / b).
Definition is_zero (q : Q) : bool := Qeq_bool q 0.
Definition ltb (a b : Q) : bool := negb (Qle_bool b a).
Definition signbit (q : Q) : bool := Qnum q <? 0.
Definition int_of_float (q : Q) : Z := Z.quot (Qnum q) (Z.pos (Qden q)).

(** The rationals have no NaN: [fnan] is absent, and a run that would
    store one is outside this instance. *)
#[global] Instance py_float : PyFloat Q := {
  fadd := add;
  fsub := sub;
  fmul := mul;
  fdiv := div;
  fltb := ltb;
  fleb := Qle_bool;
  fis_zero := is_zero;
  fsignbit := signbit;
  flit := inject_Z;
  float_of_int := fun n => Return (inject_Z n);
  pow2 := fun q => Return (mul q q);
  ceil := fun q => Return (Qceiling q);
  int_of_float := fun q => Return (int_of_float q);
  fnan := None;
}.

End Exact.

(** ** Strings: [str.lower] on ASCII text *)

Definition lower_ascii (c : ascii) : ascii :=
  let n := nat_of_ascii c in
  if ((65 <=? n)%nat && (n <=? 90)%nat)%bool then ascii_of_nat (n + 32) else c.

Fixpoint lower (s : string) : string :=
  match s with
  | EmptyString => EmptyString
  | String c s' => String (lower_ascii c) (lower s')
  end.

(** ** Python values met in [Shape_Lengths] and returned by [area] *)

#[warnings="-register-all"]
Inductive pyval (F : Type) : Type :=
| VNone
| VInt (n : Z)
| VFloat (x : F)
| VTuple (items : list (pyval F)).
Arguments VNone {F}.
Arguments VInt {F} n.
Arguments VFloat {F} x.
Arguments VTuple {F} items.

(** A tuple repeated [n] times ([t * n]; empty for [n <= 0]). *)
Definition tuple_repeat {A} (l : list A) (n : Z) : list A :=
  concat (replicate (Z.to_nat n) l).

(** [a * b] on Python values. *)
Definition py_mul `{PyFloat F} (a b : pyval F) : result (pyval F) :=
  match a, b with
  | VFloat x, VFloat y => Return (VFloat (fmul x y))
  | VFloat x, VInt n => y <- float_of_int n ;; Return (VFloat (fmul x y))
  | VInt n, VFloat y => x <- float_of_int n ;; Return (VFloat (fmul x y))
  | VInt n, VInt k => Return (VInt (n * k))
  | VTuple l, VInt n => Return (VTuple (tuple_repeat l n))
  | VInt n, VTuple l => Return (VTuple (tuple_repeat l n))
  | _, _ => Raise TypeError
  end.

(** [a ** 2] on Python values. *)
Definition py_pow2 `{PyFloat F} (a : pyval F) : result (pyval F) :=
  match a with
  | VFloat x => y <- pow2 x ;; Return (VFloat y)
  | VInt n => Return (VInt (n * n))
  | _ => Raise TypeError
  end.

(** ** Arrays *)

(** A two-dimensional float64 array of shape [(length rows, ncols)]. *)
Record ndarray (F : Type) : Type := mk_ndarray {
  ncols : nat;
  rows : list (list F);
}.
Arguments mk_ndarray {F} ncols rows.
Arguments ncols {F} n.
Arguments rows {F} n.

Definition nrows {F} (U : ndarray F) : nat := length (rows U).

(** ** Standard output and the plotting methods *)

Inductive event (F : Type) : Type :=
| Print (s : string)
| PPrint (names : list string)
| Graph_sketcher (U : ndarray F) (xf Th : F) (frames : nat)
| Gif_maker (U : ndarray F) (xf Th : F) (frames : nat).
Arguments Print {F} s.
Arguments PPrint {F} names.
Arguments Graph_sketcher {F} U xf Th frames.
Arguments Gif_maker {F} U xf Th frames.

(** A method call: what it wrote, and how it ended. *)
Definition M (F A : Type) : Type := list (event F) * result A.

Definition mret {F A} (a : A) : M F A := ([], Return a).
Definition emit {F} (e : event F) : M F unit := ([e], Return tt).
Definition lift {F A} (r : result A) : M F A := ([], r).
Definition mbind {F A B} (m : M F A) (f : A -> M F B) : M F B :=
  match m with
  | (out, Return a) => let (out', r) := f a in (out ++ out', r)
  | (out, Raise e) => (out, Raise e)
  end.

Notation "x <~ m ;; k" := (mbind m (fun x => k))
  (at level 100, m at next level, right associativity) : py_scope.
Notation "m ;;; k" := (mbind m (fun _ => k))
  (at level 100, right associativity) : py_scope.

Definition output {F A} (m : M F A) : list (event F) := fst m.
Definition outcome {F A} (m : M F A) : result A := snd m.

(** ** The class [Heat_Eqn] *)

Record Heat_Eqn (F : Type) : Type := mk_Heat_Eqn {
  Material : string;
  Number_Of_Steps : Z;
  Shape : string;
  Shape_Lengths : list (pyval F);
  Length : F;
  Time : F;
  Left_Boundary : F;
  Right_Boundary : F;
  Gif : bool;
  Graph : bool;
  Hat_Function : bool;
  Temperature_0 : option F;
  Location_of_Temp : option F;
  Length_Of_Hat_Function : option F;
}.
Arguments mk_Heat_Eqn {F}.
Arguments Material {F} h.
Arguments Number_Of_Steps {F} h.
Arguments Shape {F} h.
Arguments Shape_Lengths {F} h.
Arguments Length {F} h.
Arguments Time {F} h.
Arguments Left_Boundary {F} h.
Arguments Right_Boundary {F} h.
Arguments Gif {F} h.
Arguments Graph {F} h.
Arguments Hat_Function {F} h.
Arguments Temperature_0 {F} h.
Arguments Location_of_Temp {F} h.
Arguments Length_Of_Hat_Function {F} h.

Definition is_None {A} (o : option A) : bool :=
  match o with
  | None => true
  | Some _ => false
  end.

Definition missing_parameter : string :=
  "Missing a parameter in relation to the hat function".

(** [Heat_Eqn.__init__] (lines 25-68).  [Shape_Lengths] arrives as a tuple
    of floats; a tuple of one element is stored as the pair made of that
    tuple itself and the integer [0]. *)
Definition init {F} (Material : string) (Number_Of_Steps : Z) (Shape : string)
    (Shape_Lengths : list F) (Length Time Left_Boundary Right_Boundary : F)
    (Gif Graph Hat_Function : bool)
    (Temperature_0 Location_of_Temp Length_Of_Hat_Function : option F)
  : M F (Heat_Eqn F) :=
  (if Hat_Function && (is_None Temperature_0 || is_None Location_of_Temp
                       || is_None Length_Of_Hat_Function)
   then emit (Print missing_parameter) else mret tt) ;;;
  let given := map VFloat Shape_Lengths in
  let Shape_Lengths :=
    if (length given =? 1)%nat
    then let a := VTuple given in [a; VInt 0]
    else given in
  mret (mk_Heat_Eqn Material Number_Of_Steps Shape Shape_Lengths Length Time
          Left_Boundary Right_Boundary Gif Graph Hat_Function
          Temperature_0 Location_of_Temp Length_Of_Hat_Function).

(** *** [area] *)

(** The constants [np.pi] and [3**(1/2)]. *)
Class PyMath (F : Type) : Type := {
  np_pi : F;
  sqrt3 : F;
}.

Module Binary64Math.
#[global] Instance py_math : PyMath float := {
  np_pi := 0x1.921fb54442d18p+1%float;
  sqrt3 := PrimFloat.sqrt 3%float;
}.
End Binary64Math.

Definition unsupported_shape : string :=
  "Looks like you choose a shape that is not currently supported, review docstring of Heat_Eqn.".

(** [a, b = t]: the tuple must hold exactly two items. *)
Definition unpack2 {A} (t : list A) : result (A * A) :=
  match t with
  | [a; b] => Return (a, b)
  | _ => Raise ValueError
  end.

(** [Heat_Eqn.area] (lines 69-88). *)
Definition area `{PyFloat F} `{PyMath F} (self : Heat_Eqn F) : M F (pyval F) :=
  let shape := Shape self in
  ab <~ lift (unpack2 (Shape_Lengths self)) ;;
  let '(a, b) := ab in
  if String.eqb (lower shape) "ellipse" then
    lift (pa <- py_mul (VFloat np_pi) a ;; py_mul pa b)
  else if String.eqb (lower shape) "rectangle" then
    lift (py_mul a b)
  else if String.eqb (lower shape) "triangle" then
    lift (a2 <- py_pow2 a ;; py_mul (VFloat (fdiv sqrt3 (flit 4))) a2)
  else if String.eqb (lower shape) "hexagon" then
    lift (a2 <- py_pow2 a ;;
          py_mul (VFloat (fdiv (fmul (flit 3) sqrt3) (flit 2))) a2)
  else
    emit (Print unsupported_shape) ;;;
    mret VNone.

(** *** [mat_constants] *)

(** A row of the table [thermal_prop] of [Thermal.db]; a column may hold
    NULL, which [sqlite3] hands over as [None]. *)
Record thermal_prop (F : Type) : Type := mk_thermal_prop {
  tp_Material : string;
  tp_Conductivity : option F;
  tp_Diffusivity : option F;
  tp_Specific_Heat : option F;
  tp_Effusivity : option F;
  tp_Density : option F;
}.
Arguments mk_thermal_prop {F}.
Arguments tp_Material {F} t.
Arguments tp_Conductivity {F} t.
Arguments tp_Diffusivity {F} t.
Arguments tp_Specific_Heat {F} t.
Arguments tp_Effusivity {F} t.
Arguments tp_Density {F} t.

Definition constants (F : Type) : Type :=
  (option F * option F * option F * option F * option F)%type.

Definition not_in_database : string :=
  "Looks like the material you selected either is not in the database or it is misspelled.".
Definition use_one_of : string :=
  "please use one of the following materials".

(** [SELECT * FROM thermal_prop WHERE lower(Material) = mat], for a
    material name without quote characters. *)
Definition select_material {F} (db : list (thermal_prop F)) (mat : string)
  : list (thermal_prop F) :=
  List.filter (fun r => String.eqb (lower (tp_Material r)) mat) db.

(** [k, alpha, c, e, rho = r]: [None] cannot be unpacked. *)
Definition unpack5 {F} (r : option (constants F)) : result (constants F) :=
  match r with
  | Some t => Return t
  | None => Raise TypeError
  end.

(** [Heat_Eqn.mat_constants] (lines 89-115). *)
Definition mat_constants {F} (db : list (thermal_prop F)) (self : Heat_Eqn F)
  : M F (option (constants F)) :=
  let mat := lower (Material self) in
  let lis := select_material db mat in
  match lis with
  | [] =>
      emit (Print not_in_database) ;;;
      emit (Print use_one_of) ;;;
      emit (PPrint (map tp_Material db)) ;;;
      mret None
  | r :: _ =>
      mret (Some (tp_Conductivity r, tp_Diffusivity r, tp_Specific_Heat r,
                  tp_Effusivity r, tp_Density r))
  end.

(** ** The solver *)

Section Solver.
Context {F : Type} `{PyFloat F}.

(** *** NumPy indexing *)

(** An integer index on an axis of size [n]: negative indices count from
    the end, anything outside [-n, n) is an [IndexError]. *)
Definition np_index (n : nat) (i : Z) : result nat :=
  if (0 <=? i) && (i <? Z.of_nat n) then Return (Z.to_nat i)
  else if (- Z.of_nat n <=? i) && (i <? 0) then Return (Z.to_nat (i + Z.of_nat n))
  else Raise IndexError.

Definition lookup_cell {A} (l : list A) (k : nat) : result A :=
  match l !! k with
  | Some a => Return a
  | None => Raise IndexError
  end.

(** [x[i] = v] *)
Definition set1 (x : list F) (i : Z) (v : F) : result (list F) :=
  k <- np_index (length x) i ;; Return (<[k := v]> x).

(** [U[j, :]] *)
Definition get_row (U : ndarray F) (j : Z) : result (list F) :=
  r <- np_index (nrows U) j ;; lookup_cell (rows U) r.

(** [U[j, i]] *)
Definition get2 (U : ndarray F) (j i : Z) : result F :=
  r <- np_index (nrows U) j ;;
  c <- np_index (ncols U) i ;;
  row <- lookup_cell (rows U) r ;;
  lookup_cell row c.

(** [U[j, :] = row], for a [row] of [ncols U] cells. *)
Definition set_row (U : ndarray F) (j : Z) (row : list F) : result (ndarray F) :=
  r <- np_index (nrows U) j ;;
  Return (mk_ndarray (ncols U) (<[r := row]> (rows U))).

(** The bounds of the slice [a:b] on an axis of size [n]: a negative
    bound counts from the end, and the result is clipped to [0, n]. *)
Definition slice_bound (n : nat) (a : Z) : nat :=
  let a' := if a <? 0 then a + Z.of_nat n else a in
  Z.to_nat (Z.min (Z.max a' 0) (Z.of_nat n)).

Definition in_slice (n : nat) (a b : Z) (k : nat) : bool :=
  (slice_bound n a <=? k)%nat && (k <? slice_bound n b)%nat.

(** [row[a:b] = v] *)
Definition fill_slice (row : list F) (a b : Z) (v : F) : list F :=
  imap (fun k old => if in_slice (length row) a b k then v else old) row.

(** The float64 stored for a Python object: [None] becomes NaN. *)
Definition as_float64 (o : option F) : result F :=
  match o with
  | Some v => Return v
  | None =>
      match fnan with
      | Some v => Return v
      | None => Raise Unrepresentable
      end
  end.

(** *** Lines 127-132: the derived parameters *)

Definition time_step (self : Heat_Eqn F) (k : F) (c rho : option F)
  : result (F * F * F) :=
  let m := Number_Of_Steps self in
  crho <- (c' <- number c ;; rho' <- number rho ;; Return (fmul c' rho')) ;;
  alphaprime <- py_div k crho ;;
  let xf := Length self in
  mf <- float_of_int m ;;
  dx <- py_div xf mf ;;
  dx2 <- pow2 dx ;;
  dt <- py_div dx2 (fmul (flit 2) alphaprime) ;;
  Return (alphaprime, dx, dt).

(** *** Lines 133-135: the time axis and the zero-filled field *)

Definition intp_min : Z := - 2 ^ 63.
Definition intp_max : Z := 2 ^ 63 - 1.

(** [len(np.arange(0, tf, dt))].  NumPy divides [tf - 0] by [dt] and
    takes the ceiling; a quotient that is zero for a nonzero [tf] counts
    one sample (none when its sign bit is set); a negative count gives
    the empty array. *)
Definition arange_len (tf dt : F) : result nat :=
  let next := fsub tf (flit 0) in
  val <- py_div next dt ;;
  if fis_zero val && negb (fis_zero next) then
    Return (if fsignbit val then 0%nat else 1%nat)
  else
    len <- ceil val ;;
    if (intp_min <=? len) && (len <=? intp_max)
    then Return (Z.to_nat len)
    else Raise OverflowError.

(** [np.empty(m)]: the cells are not initialised by NumPy; they stand as
    zeros here, and no cell is read before the loop has written it
    (see [rates_eval]). *)
Definition np_empty (m : Z) : result (list F) :=
  if m <? 0 then Raise ValueError
  else Return (replicate (Z.to_nat m) (flit 0)).

(** [np.ones((n, m)) * 0] *)
Definition zero_cell : F := fmul (flit 1) (flit 0).
Definition np_zeros (n m : nat) : ndarray F :=
  mk_ndarray m (replicate n (replicate m zero_cell)).

(** *** Lines 136-140: the hat function *)

Definition hat_indices (self : Heat_Eqn F) : result (Z * Z) :=
  let xf := Length self in
  let m := Number_Of_Steps self in
  len <- number (Length_Of_Hat_Function self) ;;
  deltafunction <- ceil (fdiv len (flit 2)) ;;
  T_0 <- number (Location_of_Temp self) ;;
  q <- py_div T_0 xf ;;
  mf <- float_of_int m ;;
  startingcondition <- int_of_float (fsub (fmul q mf) (flit 1)) ;;
  Return (startingcondition - deltafunction, startingcondition + deltafunction).

Definition hat_function (self : Heat_Eqn F) (U : ndarray F) : result (ndarray F) :=
  if Hat_Function self then
    ab <- hat_indices self ;;
    row <- get_row U 0 ;;
    v <- as_float64 (Temperature_0 self) ;;
    set_row U 0 (fill_slice row (fst ab) (snd ab) v)
  else Return U.

(** *** Lines 143-148: the stepping loop *)

(** The right-hand side of the three assignments to [x]. *)
Definition second_difference (alphaprime dx a b c : F) : result F :=
  dx2 <- pow2 dx ;;
  Return (fmul alphaprime (fdiv (fadd (fsub a (fmul (flit 2) b)) c) dx2)).

Definition interior (alphaprime dx : F) (U : ndarray F) (j i : Z) (x : list F)
  : result (list F) :=
  a <- get2 U j (i + 1) ;;
  b <- get2 U j i ;;
  c <- get2 U j (i - 1) ;;
  v <- second_difference alphaprime dx a b c ;;
  set1 x i v.

Definition rates (alphaprime dx bl br : F) (m : Z) (U : ndarray F) (j : Z)
    (x : list F) : result (list F) :=
  x <- for_each (range 1 (m - 1)) (interior alphaprime dx U j) x ;;
  x <- (a <- get2 U j 1 ;;
        b <- get2 U j 0 ;;
        v <- second_difference alphaprime dx a b bl ;;
        set1 x 0 v) ;;
  a <- get2 U j (m - 1) ;;
  c <- get2 U j (m - 2) ;;
  v <- second_difference alphaprime dx br a c ;;
  set1 x (m - 1) v.

(** One pass of the loop over [j]: the state is the field and the
    buffer [x]. *)
Definition time_loop_body (alphaprime dx dt bl br : F) (m : Z) (j : Z)
    (s : ndarray F * list F) : result (ndarray F * list F) :=
  let (U, x) := s in
  x <- rates alphaprime dx bl br m U j x ;;
  row <- get_row U j ;;
  U <- set_row U (j + 1) (zip_with fadd row (map (fun v => fmul v dt) x)) ;;
  Return (U, x).

Definition time_loop (alphaprime dx dt bl br : F) (m : Z) (n : nat)
    (U : ndarray F) (x : list F) : result (ndarray F * list F) :=
  for_each (range 0 (Z.of_nat n - 1))
    (time_loop_body alphaprime dx dt bl br m) (U, x).

(** *** Lines 150-161: the highest temperature, for the plots *)

Definition highest_temperature (self : Heat_Eqn F) : F :=
  let bl := Left_Boundary self in
  let br := Right_Boundary self in
  match Temperature_0 self with
  | None => if fleb bl br then br else bl
  | Some t0 =>
      if fltb bl t0 && fltb br t0 then t0
      else if fleb bl br then br
      else bl
  end.

(** *** Lines 127-161 *)

Record solution : Type := mk_solution {
  sol_U : ndarray F;
  sol_xf : F;
  sol_Th : F;
  sol_frames : nat;
}.

Definition solve (self : Heat_Eqn F) (k : F) (c rho : option F) : result solution :=
  let m := Number_Of_Steps self in
  p <- time_step self k c rho ;;
  let '(alphaprime, dx, dt) := p in
  n <- arange_len (Time self) dt ;;
  x <- np_empty m ;;
  let U := np_zeros n (length x) in
  U <- hat_function self U ;;
  let bl := Left_Boundary self in
  let br := Right_Boundary self in
  s <- time_loop alphaprime dx dt bl br m n U x ;;
  Return (mk_solution (fst s) (Length self) (highest_temperature self) n).

Definition an_error_occured : string :=
  "An Error Occured please, double check your inputs and try again.".

(** [Heat_Eqn.heateqn] (lines 116-167).  Unpacking the [None] that
    [mat_constants] returns for an unknown material is a [TypeError].
    The abscissae [xn] of line 149 only label the plots and are left
    out of the plotting events. *)
Definition heateqn (db : list (thermal_prop F)) (self : Heat_Eqn F)
  : M F (option (ndarray F)) :=
  found <~ mat_constants db self ;;
  consts <~ lift (unpack5 found) ;;
  let '(k, alpha, c, e, rho) := consts in
  match k with
  | None => emit (Print an_error_occured) ;;; mret None
  | Some k =>
      s <~ lift (solve self k c rho) ;;
      if Gif self then
        emit (Gif_maker (sol_U s) (sol_xf s) (sol_Th s) (sol_frames s)) ;;;
        mret None
      else if Graph self then
        emit (Graph_sketcher (sol_U s) (sol_xf s) (sol_Th s) (sol_frames s)) ;;;
        mret None
      else mret (Some (sol_U s))
  end.

End Solver.

(** ** The table of [Thermal.db], as the source lists it (lines 273-305) *)

Section Data.
Context {F : Type} `{PyFloat F}.

(** The decimal literal [n / 10^d]; in binary64 the quotient of the two
    exactly represented integers is the correctly rounded literal. *)
Definition decimal (n : Z) (d : Z) : option F :=
  Some (fdiv (flit n) (flit (10 ^ d))).

Definition entry (name : string) (K alpha c e rho : option F) : thermal_prop F :=
  mk_thermal_prop name K alpha c e rho.

Definition data : list (thermal_prop F) :=
  [ entry "Air" (decimal 25 3) (decimal 194 1) (decimal 1004 0) (decimal 6 0) (decimal 129 2);
    entry "Aluminum" (decimal 22594 2) (decimal 91 0) (decimal 921 0) (decimal 23688 0) (decimal 2698 0);
    entry "Copper" (decimal 39748 2) (decimal 116 0) (decimal 385 0) (decimal 36983 0) (decimal 8940 0);
    entry "Gold" (decimal 31798 2) (decimal 129 0) (decimal 128 0) (decimal 28027 0) (decimal 19300 0);
    entry "Iron" (decimal 71965 3) (decimal 204 1) (decimal 448 0) (decimal 15924 0) (decimal 7870 0);
    entry "Magnesium" (decimal 15062 2) (decimal 862 1) (decimal 1004 0) (decimal 16221 0) (decimal 1740 0);
    entry "Nitrogen" (decimal 26 3) (decimal 196 1) (decimal 1042 0) (decimal 6 0) (decimal 1251 3);
    entry "Platnium" (decimal 69036 3) (decimal 241 1) (decimal 134 0) (decimal 14065 0) (decimal 21400 0);
    entry "Plutonium" (decimal 8201 3) (decimal 319 2) (decimal 134 0) (decimal 4592 0) (decimal 19200 0);
    entry "High Density Ployethylene" (decimal 502 3) (decimal 23 2) (decimal 2301 0) (decimal 1048 0) (decimal 950 0);
    entry "Medium Density Ployethylene" (decimal 414 3) (decimal 19 2) (decimal 2301 0) (decimal 944 0) (decimal 935 0);
    entry "Low Density Ployethylene" (decimal 331 3) (decimal 17 2) (decimal 2092 0) (decimal 798 0) (decimal 920 0);
    entry "Polycarbonate" (decimal 192 3) (decimal 9 2) (decimal 1674 0) (decimal 660 0) (decimal 1350 0);
    entry "Rock" (decimal 1757 3) (decimal 81 2) (decimal 837 0) (decimal 1955 0) (decimal 2600 0);
    entry "Silver" (decimal 42677 2) (decimal 172 0) (decimal 236 0) (decimal 32520 0) (decimal 10500 0);
    entry "Soil" (decimal 837 3) (decimal 62 2) (decimal 1046 0) (decimal 1067 0) (decimal 1300 0);
    entry "Steam" (decimal 23 3) (decimal 199 1) (decimal 1966 0) (decimal 5 0) (decimal 598 3);
    entry "Stainless Steel" (decimal 22928 3) (decimal 656 2) (decimal 460 0) (decimal 8955 0) (decimal 7600 0);
    entry "Mild Steel" (decimal 4184 2) (decimal 108 1) (decimal 502 0) (decimal 12760 0) (decimal 7750 0);
    entry "Carbon Steel" (decimal 71128 3) (decimal 197 1) (decimal 460 0) (decimal 16040 0) (decimal 7860 0);
    entry "Titanium" (decimal 2092 2) (decimal 889 2) (decimal 523 0) (decimal 7017 0) (decimal 4500 0);
    entry "Tungsten" (decimal 19665 2) (decimal 761 1) (decimal 134 0) (decimal 22543 0) (decimal 19300 0);
    entry "Uranium" (decimal 26443 3) (decimal 118 1) (decimal 117 0) (decimal 7694 0) (decimal 19100 0);
    entry "Water" (decimal 603 3) (decimal 14 2) (decimal 4184 0) (decimal 1588 0) (decimal 1000 0);
    entry "Ice" (decimal 2092 3) (decimal 54 2) (decimal 4217 0) (decimal 2844 0) (decimal 917 0);
    entry "Wood Spruce With Grain" (decimal 23 2) (decimal 45 2) (decimal 1255 0) (decimal 344 0) (decimal 410 0);
    entry "Wood Spruce Across Grain" (decimal 126 3) (decimal 24 2) (decimal 1255 0) (decimal 254 0) (decimal 410 0);
    entry "Wood Teak With Grain" (decimal 172 3) (decimal 12 2) (decimal 2301 0) (decimal 503 0) (decimal 640 0);
    entry "Wood Teak Across Grain" (decimal 142 3) (decimal 12 2) (decimal 2301 0) (decimal 420 0) (decimal 540 0);
    entry "Wood Fir Across Grain" (decimal 109 3) (decimal 11 2) (decimal 2301 0) (decimal 336 0) (decimal 450 0);
    entry "Wood Pine Acrosse Grain" (decimal 13 2) (decimal 11 2) (decimal 2301 0) (decimal 398 0) (decimal 530 0);
    entry "Wood Maple Across Grain" (decimal 176 3) (decimal 11 2) (decimal 2301 0) (decimal 536 0) (decimal 710 0) ].

(** Building the object and solving, as the script does (lines 316-318). *)
Definition run (db : list (thermal_prop F))
    (Material : string) (Number_Of_Steps : Z) (Shape : string)
    (Shape_Lengths : list F) (Length Time Left_Boundary Right_Boundary : F)
    (Gif Graph Hat_Function : bool)
    (Temperature_0 Location_of_Temp Length_Of_Hat_Function : option F)
  : M F (option (ndarray F)) :=
  self <~ init Material Number_Of_Steps Shape Shape_Lengths Length Time
            Left_Boundary Right_Boundary Gif Graph Hat_Function
            Temperature_0 Location_of_Temp Length_Of_Hat_Function ;;
  heateqn db self.

End Data.

(** ** Line 149: the abscissae of the nodes *)

Section Abscissae.
Context {F : Type} `{PyFloat F}.



End Abscissae.

(** ** The plotting methods [graph_sketcher] and [gif_maker]

    The methods only talk to matplotlib, imageio and the file system; they
    are modelled by the calls they make, in order.  A library call is
    taken to return normally; the one exception of the program's own is
    the [IndexError] of [U[p, :]]. *)

Inductive call (F : Type) : Type :=
| plt_title (s : string)
| plt_axis (x0 x1 y0 y1 : F)
| plt_xlabel (s : string)
| plt_ylabel (s : string)
| plt_clf
| plt_figure (num : Z)
| plt_plot (x y : list F)
| plt_pause
| plt_show
| plt_savefig (file : string)
| plt_close
(** entering and leaving [with imageio.get_writer(file, mode='I')] *)
| get_writer (file : string)
| writer_exit
(** [image = imageio.imread(file)] and [writer.append_data(image)] *)
| imread (file : string)
| append_data (file : string)
| os_remove (file : string).
Arguments plt_title {F} s.
Arguments plt_axis {F} x0 x1 y0 y1.
Arguments plt_xlabel {F} s.
Arguments plt_ylabel {F} s.
Arguments plt_clf {F}.
Arguments plt_figure {F} num.
Arguments plt_plot {F} x y.
Arguments plt_pause {F}.
Arguments plt_show {F}.
Arguments plt_savefig {F} file.
Arguments plt_close {F}.
Arguments get_writer {F} file.
Arguments writer_exit {F}.
Arguments imread {F} file.
Arguments append_data {F} file.
Arguments os_remove {F} file.

(** A plotting method: the calls it made, and how it ended. *)
Definition Plot (F A : Type) : Type := list (call F) * result A.

Definition pret {F A} (a : A) : Plot F A := ([], Return a).
Definition perform {F} (c : call F) : Plot F unit := ([c], Return tt).
Definition plift {F A} (r : result A) : Plot F A := ([], r).
Definition pbind {F A B} (m : Plot F A) (f : A -> Plot F B) : Plot F B :=
  match m with
  | (out, Return a) => let (out', r) := f a in (out ++ out', r)
  | (out, Raise e) => (out, Raise e)
  end.

Declare Scope plot_scope.
Delimit Scope plot_scope with plot.
Notation "x <~ m ;; k" := (pbind m (fun x => k))
  (at level 100, m at next level, right associativity) : plot_scope.
Notation "m ;;; k" := (pbind m (fun _ => k))
  (at level 100, right associativity) : plot_scope.

(** [for v in l: body], threading a state. *)
Fixpoint pfor {F A St} (l : list A) (body : A -> St -> Plot F St) (s : St) : Plot F St :=
  match l with
  | [] => pret s
  | v :: l' => pbind (body v s) (pfor l' body)
  end.

Definition calls {F A} (m : Plot F A) : list (call F) := fst m.
Definition ending {F A} (m : Plot F A) : result A := snd m.

Section Plotting.
Context {F : Type} `{PyFloat F}.
Local Open Scope plot_scope.

(** [str(x)] for the numbers that the titles and the file name show. *)
Variable str : F -> string.

Definition str_of_optional (o : option F) : string :=
  match o with
  | Some x => str x
  | None => "None"
  end.

(** The two titles (lines 174 and 176). *)
Definition title_hat (self : Heat_Eqn F) : string :=
  String.concat ""
    [Material self; " with boundary conditions "; str (Left_Boundary self);
     " C and "; str (Right_Boundary self); " C and ";
     str_of_optional (Temperature_0 self); " C hat function"].

Definition title_plain (self : Heat_Eqn F) : string :=
  String.concat ""
    [Material self; " with boundary conditions "; str (Left_Boundary self);
     " C and "; str (Right_Boundary self); " C"].

(** The title, the axes and their labels, as both methods set them. *)
Definition decorate (self : Heat_Eqn F) (xf Th : F) : Plot F unit :=
  (if Hat_Function self then perform (plt_title (title_hat self))
   else perform (plt_title (title_plain self))) ;;;
  perform (plt_axis (flit 0) xf (flit 0) Th) ;;;
  perform (plt_xlabel "Position (m)") ;;;
  perform (plt_ylabel "Temperature(C)").

(** [Heat_Eqn.graph_sketcher] (lines 168-192); [frames] is [len(t)]. *)
Definition graph_sketcher (self : Heat_Eqn F) (xn : list F) (U : ndarray F)
    (xf Th : F) (frames : nat) : Plot F unit :=
  decorate self xf Th ;;;
  pfor (range 0 (Z.of_nat frames))
    (fun p _ =>
       perform plt_clf ;;;
       perform (plt_figure 1) ;;;
       decorate self xf Th ;;;
       row <~ plift (get_row U p) ;;
       perform (plt_plot xn row) ;;;
       perform plt_pause) tt ;;;
  perform plt_show.

(** [f'{p}.png'] *)
Definition frame_file (p : Z) : string := String.append (pretty p) ".png".

(** The body of the [with] block of lines 216-221 and 223-228. *)
Definition write_gif (file : string) (giflists : list string) : Plot F unit :=
  perform (get_writer file) ;;;
  pfor giflists (fun giflist _ => perform (imread giflist) ;;; perform (append_data giflist)) tt ;;;
  pfor giflists (fun giflist _ => perform (os_remove giflist)) tt ;;;
  perform writer_exit.

(** [Heat_Eqn.gif_maker] (lines 193-228). *)
Definition gif_maker (self : Heat_Eqn F) (xn : list F) (U : ndarray F)
    (xf Th : F) (frames : nat) : Plot F unit :=
  giflists <~
    pfor (range 0 (Z.of_nat frames))
      (fun p giflists =>
         perform (plt_figure 1) ;;;
         row <~ plift (get_row U p) ;;
         perform (plt_plot xn row) ;;;
         decorate self xf Th ;;;
         let filename := frame_file p in
         let giflists := giflists ++ [filename] in
         perform (plt_savefig filename) ;;;
         perform plt_close ;;;
         pret giflists) [] ;;
  if Hat_Function self then
    write_gif
      (String.concat ""
         [Material self; "_"; str (Left_Boundary self); "_";
          str (Right_Boundary self); "_HAT.gif"]) giflists
  else
    write_gif
      (String.concat ""
         [Material self; "_"; str (Left_Boundary self); "_";
          str (Right_Boundary self); ".gif"]) giflists.

(** What a plotting event of [heateqn] does, given the abscissae. *)
Definition render (self : Heat_Eqn F) (xn : list F) (ev : event F) : Plot F unit :=
  match ev with
  | Gif_maker U xf Th frames => gif_maker self xn U xf Th frames
  | Graph_sketcher U xf Th frames => graph_sketcher self xn U xf Th frames
  | Print _ | PPrint _ => pret tt
  end.

End Plotting.

(** The arguments of the calls of one kind, in order. *)
Definition saved {F} (l : list (call F)) : list string :=
  omap (fun c => match c with plt_savefig f => Some f | _ => None end) l.
Definition read {F} (l : list (call F)) : list string :=
  omap (fun c => match c with imread f => Some f | _ => None end) l.
Definition appended {F} (l : list (call F)) : list string :=
  omap (fun c => match c with append_data f => Some f | _ => None end) l.
Definition removed {F} (l : list (call F)) : list string :=
  omap (fun c => match c with os_remove f => Some f | _ => None end) l.
Definition written {F} (l : list (call F)) : list string :=
  omap (fun c => match c with get_writer f => Some f | _ => None end) l.
Definition plotted_rows {F} (l : list (call F)) : list (list F) :=
  omap (fun c => match c with plt_plot _ y => Some y | _ => None end) l.
Definition axes {F} (l : list (call F)) : list (F * F * F * F) :=
  omap (fun c => match c with plt_axis a b c d => Some (a, b, c, d) | _ => None end) l.

(** * The vocabulary of the properties *)

(** ** The recurrence, in closed form

    The update of one row as the specification words it: every node adds
    [dt] times its rate, the rate is the central second difference of the
    row, and the two boundary temperatures stand for the neighbours the
    edge nodes lack. *)

Section Recurrence.
Context {F : Type} `{PyFloat F}.
Variables (alphaprime dx2 dt bl br : F).

(** The left operand of the stencil at node [i]: the boundary temperature
    at node 0, the left neighbour elsewhere. *)
Definition left_of (row : list F) (i : nat) : F :=
  match i with
  | O => bl
  | S p => default bl (row !! p)
  end.

(** The right operand: the right neighbour, or the boundary temperature
    at the last node, which has none. *)
Definition right_of (row : list F) (i : nat) : F :=
  default br (row !! S i).

Definition rate_at (row : list F) (i : nat) (u : F) : F :=
  fmul alphaprime
    (fdiv (fadd (fsub (right_of row i) (fmul (flit 2) u)) (left_of row i)) dx2).

Definition rate_array (row : list F) : list F := imap (rate_at row) row.

Definition next_row (row : list F) : list F :=
  zip_with fadd row (map (fun v => fmul v dt) (rate_array row)).

(** The rows that follow [row]: [evolve k row] is [k] updates later. *)
Fixpoint evolve (k : nat) (row : list F) : list F :=
  match k with
  | O => row
  | S k' => next_row (evolve k' row)
  end.

End Recurrence.

(** [U[j, i]], when the cell exists. *)
Definition cell {F : Type} (U : ndarray F) (j i : nat) : option F :=
  match rows U !! j with
  | Some row => row !! i
  | None => None
  end.

(** The value the loop writes at a node whose own temperature is [u] and
    whose right and left neighbours (or boundary temperatures) are [r] and
    [l]: [u + alphaprime * ((r - 2*u + l) / dx**2) * dt]. *)
Definition forward_step `{PyFloat F} (alphaprime dx2 dt r u l : F) : F :=
  fadd u (fmul (fmul alphaprime (fdiv (fadd (fsub r (fmul (flit 2) u)) l) dx2)) dt).

(** ** Fields, solutions and objects *)

Section Vocabulary.
Context {F : Type} `{PyFloat F}.

(** A field of [n] rows of [m] cells each. *)
Definition shaped (U : ndarray F) (n m : nat) : Prop :=
  nrows U = n /\ ncols U = m /\ forall r row, rows U !! r = Some row -> length row = m.

(** Row 0 of the field once the hat function is applied (lines
    136-140). *)
Definition initial_row (self : Heat_Eqn F) (m : nat) : result (list F) :=
  if Hat_Function self then
    ab <- hat_indices self ;;
    v <- as_float64 (Temperature_0 self) ;;
    Return (fill_slice (replicate m zero_cell) (fst ab) (snd ab) v)
  else Return (replicate m zero_cell).

(** The facts a returned solution carries. *)
Record solved (self : Heat_Eqn F) (k : F) (c rho : option F) (s : solution)
    (alphaprime dx dx2 dt : F) (n : nat) : Prop := {
  solved_time_step : time_step self k c rho = Return (alphaprime, dx, dt);
  solved_dx2 : pow2 dx = Return dx2;
  solved_frames : arange_len (Time self) dt = Return n;
  solved_nodes : 0 <= Number_Of_Steps self;
  solved_shape : shaped (sol_U s) n (Z.to_nat (Number_Of_Steps self));
  solved_rows :
    (1 <= n)%nat ->
    exists row0,
      initial_row self (Z.to_nat (Number_Of_Steps self)) = Return row0 /\
      forall j, (j < n)%nat ->
        rows (sol_U s) !! j
        = Some (evolve alphaprime dx2 dt (Left_Boundary self) (Right_Boundary self) j row0);
  solved_loop : (2 <= n)%nat -> 2 <= Number_Of_Steps self;
  solved_hat : Hat_Function self = true -> (1 <= n)%nat;
  solved_xf : sol_xf s = Length self;
  solved_Th : sol_Th s = highest_temperature self;
  solved_n : sol_frames s = n;
}.


(** An object whose stored lengths are the pair [(a, b)]. *)
Definition with_shape (shape : string) (a b : F) (self : Heat_Eqn F) : Heat_Eqn F :=
  mk_Heat_Eqn (Material self) (Number_Of_Steps self) shape [VFloat a; VFloat b]
    (Length self) (Time self) (Left_Boundary self) (Right_Boundary self)
    (Gif self) (Graph self) (Hat_Function self) (Temperature_0 self)
    (Location_of_Temp self) (Length_Of_Hat_Function self).

(** Two objects that differ at most in [Temperature_0],
    [Location_of_Temp] and [Length_Of_Hat_Function]. *)
Definition same_but_pulse (h h' : Heat_Eqn F) : Prop :=
  Material h = Material h' /\ Number_Of_Steps h = Number_Of_Steps h' /\
  Shape h = Shape h' /\ Shape_Lengths h = Shape_Lengths h' /\
  Length h = Length h' /\ Time h = Time h' /\
  Left_Boundary h = Left_Boundary h' /\ Right_Boundary h = Right_Boundary h' /\
  Gif h = Gif h' /\ Graph h = Graph h' /\ Hat_Function h = Hat_Function h'.

(** A solution without its highest temperature. *)
Definition field_part (s : solution) : ndarray F * F * nat :=
  (sol_U s, sol_xf s, sol_frames s).

(** A function applied to a returned value. *)
Definition rmap {A B} (f : A -> B) (r : result A) : result B :=
  match r with
  | Return a => Return (f a)
  | Raise e => Raise e
  end.

(** A plotting event without the highest temperature it was given. *)
Definition forget_Th (ev : event F) : event F :=
  match ev with
  | Graph_sketcher U xf _ n => Graph_sketcher U xf xf n
  | Gif_maker U xf _ n => Gif_maker U xf xf n
  | Print s => Print s
  | PPrint l => PPrint l
  end.

End Vocabulary.

(** The events that call a plotting method. *)
Definition is_plot {F : Type} (ev : event F) : bool :=
  match ev with
  | Graph_sketcher _ _ _ _ | Gif_maker _ _ _ _ => true
  | Print _ | PPrint _ => false
  end.

(** ** The runs used as examples *)

Module Scenario.

(** The script's run (line 316) without the plot: aluminum, 10 nodes,
    length 1, 6000 seconds, both boundaries at 100. *)
Definition aluminum `{PyFloat F} (Time : Z) : Heat_Eqn F :=
  mk_Heat_Eqn "Aluminum" 10 "ellipse" [VFloat (flit 1); VFloat (flit 1)]
    (flit 1) (flit Time) (flit 100) (flit 100) false false false None None None.

(** The constants of aluminum in [data]. *)
Definition K `{PyFloat F} : F := fdiv (flit 22594) (flit 100).
Definition c `{PyFloat F} : F := fdiv (flit 921) (flit 1).
Definition rho `{PyFloat F} : F := fdiv (flit 2698) (flit 1).

End Scenario.

(** The object of the test [testHeatEqnMatConFail]. *)
Definition aluminium : Heat_Eqn float :=
  mk_Heat_Eqn "Aluminium" 1000 "ellipse" [VFloat 1%float; VFloat 1%float]
    1%float 1000%float 100%float 100%float false false false None None None.


(** Two runs without hat function that differ in [Temperature_0] only:
    the plot is scaled to 100 in one and to 500 in the other. *)
Definition plotted (Temperature_0 : option Q) : Heat_Eqn Q :=
  mk_Heat_Eqn "Aluminum" 4 "ellipse" [VFloat 1%Q; VFloat 1%Q] 1%Q 1000%Q 100%Q 100%Q
    false true false Temperature_0 None None.


(** ** The claims' own readings *)



(** ** Bounds, monotonicity and distance to the boundary temperature *)

Section HeatingVocabulary.
Local Open Scope Q_scope.
Variable T : Q.





End HeatingVocabulary.



(** ** The vocabulary of the further properties *)

(** ** Rows between two temperatures, and rows that agree *)

Section BoundsVocabulary.
Local Open Scope Q_scope.



End BoundsVocabulary.

(** A rod of aluminum-like settings on [m] nodes: length [xf], duration
    [Time], both boundaries at 100, no hat function, no plot. *)
Definition rod `{PyFloat F} (m xf Time : Z) : Heat_Eqn F :=
  mk_Heat_Eqn "Aluminum" m "ellipse" [VFloat (flit 1); VFloat (flit 1)]
    (flit xf) (flit Time) (flit 100) (flit 100) false false false None None None.

(** The events that call [gif_maker]. *)
Definition is_gif {F : Type} (ev : event F) : bool :=
  match ev with
  | Gif_maker _ _ _ _ => true
  | _ => false
  end.

(** A table of one material whose conductivity is NULL. *)
Definition no_conductivity : list (thermal_prop Q) :=
  [mk_thermal_prop "Aluminum" None (Some 91%Q) (Some 921%Q) (Some 23688%Q) (Some 2698%Q)].


(** The row's material is the one asked for, up to case. *)
Definition names (F : Type) (mat : string) (r : thermal_prop F) : Prop :=
  lower (tp_Material r) = lower mat.
Arguments names {F} mat r.



(** Python's [str] of a temperature, for the examples: every number of
    the example prints as [100]. *)
Definition str_100 (x : Q) : string := "100".

(** A field of two rows on three nodes. *)
Definition two_rows : ndarray Q :=
  mk_ndarray 3 [[0; 0; 0]; [50; 0; 50]]%Q.

(** * Properties *)


(** ** Loops and indices *)

Lemma rbind_Return {A B} (r : result A) (f : A -> result B) (b : B) :
  rbind r f = Return b -> exists a, r = Return a /\ f a = Return b.
Proof. destruct r as [a|e]; simpl; [eauto | discriminate]. Qed.

Ltac bind_inv H :=
  let a := fresh "a" in
  let Ha := fresh "Ha" in
  apply rbind_Return in H as (a & Ha & H).

Lemma range_nil (a b : Z) : b <= a -> range a b = [].
Proof.
  intros Hab. unfold range.
  replace (Z.to_nat (b - a)) with 0%nat by lia. reflexivity.
Qed.

Lemma range_snoc (a b : Z) : a <= b -> range a (b + 1) = range a b ++ [b].
Proof.
  intros Hab. unfold range.
  replace (Z.to_nat (b + 1 - a)) with (S (Z.to_nat (b - a))) by lia.
  rewrite seq_S, map_app. simpl. do 2 f_equal. lia.
Qed.

Lemma for_each_app {A St} (l1 l2 : list A) (body : A -> St -> result St) (s : St) :
  for_each (l1 ++ l2) body s = (s' <- for_each l1 body s ;; for_each l2 body s').
Proof.
  revert s. induction l1 as [|v l1 IH]; intros s; simpl; [reflexivity|].
  destruct (body v s); simpl; [apply IH | reflexivity].
Qed.

(** A loop over [range(a, b)] whose body succeeds while an invariant
    holds runs to the end and re-establishes the invariant at [b]. *)
Lemma for_each_range {St} (P : Z -> St -> Prop) (body : Z -> St -> result St)
    (a b : Z) (s : St) :
  a <= b -> P a s ->
  (forall i t, a <= i < b -> P i t -> exists t', body i t = Return t' /\ P (i + 1) t') ->
  exists s', for_each (range a b) body s = Return s' /\ P b s'.
Proof.
  intros Hab H0 Hstep.
  assert (Hgen : forall k : nat, a + Z.of_nat k <= b ->
            exists s', for_each (range a (a + Z.of_nat k)) body s = Return s'
                       /\ P (a + Z.of_nat k) s').
  { induction k as [|k IH]; intros Hk.
    - rewrite Z.add_0_r, range_nil by lia. simpl. eauto.
    - destruct IH as (t & Ht & HP); [lia|].
      destruct (Hstep (a + Z.of_nat k) t) as (t' & Hb & HP'); [lia|exact HP|].
      exists t'. replace (a + Z.of_nat (S k)) with (a + Z.of_nat k + 1) by lia.
      rewrite range_snoc, for_each_app, Ht by lia. simpl. rewrite Hb. auto. }
  destruct (Hgen (Z.to_nat (b - a))) as (s' & Hs & HP); [lia|].
  replace (a + Z.of_nat (Z.to_nat (b - a))) with b in * by lia. eauto.
Qed.

(** A loop whose body raises at its first pass raises. *)
Lemma for_each_raise_first {St} (body : Z -> St -> result St) (a b : Z) (s : St) (e : exc) :
  a < b -> body a s = Raise e -> for_each (range a b) body s = Raise e.
Proof.
  intros Hab Hb. unfold range.
  replace (Z.to_nat (b - a)) with (S (Z.to_nat (b - a - 1))) by lia.
  simpl. rewrite Z.add_0_r, Hb. reflexivity.
Qed.

Section SolverFacts.
Context {F : Type} `{PyFloat F}.

Lemma np_index_nonneg (n : nat) (i : Z) :
  0 <= i < Z.of_nat n -> np_index n i = Return (Z.to_nat i).
Proof.
  intros Hi. unfold np_index.
  destruct (Z.leb_spec 0 i), (Z.ltb_spec i (Z.of_nat n)); simpl; try lia.
  reflexivity.
Qed.

Lemma np_index_beyond (n : nat) (i : Z) :
  Z.of_nat n <= i -> np_index n i = Raise IndexError.
Proof.
  intros Hi. unfold np_index.
  destruct (Z.leb_spec 0 i), (Z.ltb_spec i (Z.of_nat n)),
    (Z.leb_spec (- Z.of_nat n) i), (Z.ltb_spec i 0); simpl; try lia; reflexivity.
Qed.

Lemma np_zeros_shaped (n m : nat) : shaped (np_zeros n m) n m.
Proof.
  unfold shaped, nrows, np_zeros. simpl. rewrite length_replicate.
  repeat split. intros r row Hr. apply lookup_replicate in Hr as [-> _].
  apply length_replicate.
Qed.

Lemma get_row_eval (U : ndarray F) (n m : nat) (j : Z) (row : list F) :
  shaped U n m -> 0 <= j -> rows U !! Z.to_nat j = Some row ->
  get_row U j = Return row.
Proof.
  intros (Hn & _ & _) Hj Hrow. unfold get_row.
  apply lookup_lt_Some in Hrow as Hlt. unfold nrows in *.
  rewrite np_index_nonneg by lia. simpl. unfold lookup_cell. rewrite Hrow.
  reflexivity.
Qed.

Lemma get2_eval (U : ndarray F) (n m : nat) (j i : Z) (row : list F) (v : F) :
  shaped U n m -> 0 <= j -> 0 <= i ->
  rows U !! Z.to_nat j = Some row -> row !! Z.to_nat i = Some v ->
  get2 U j i = Return v.
Proof.
  intros (Hn & Hm & Hrows) Hj Hi Hrow Hv. unfold get2.
  apply lookup_lt_Some in Hrow as Hlt. apply lookup_lt_Some in Hv as Hlt'.
  rewrite (Hrows _ _ Hrow) in Hlt'. unfold nrows in *.
  rewrite np_index_nonneg by lia. simpl.
  rewrite np_index_nonneg by lia. simpl.
  unfold lookup_cell. rewrite Hrow. simpl. rewrite Hv. reflexivity.
Qed.

Lemma get2_beyond (U : ndarray F) (n m : nat) (j i : Z) :
  shaped U n m -> 0 <= j < Z.of_nat n -> Z.of_nat m <= i ->
  get2 U j i = Raise IndexError.
Proof.
  intros (Hn & Hm & _) Hj Hi. unfold get2. unfold nrows in *.
  rewrite np_index_nonneg by lia. simpl.
  rewrite np_index_beyond by lia. reflexivity.
Qed.

Lemma set1_eval (x : list F) (i : Z) (v : F) :
  0 <= i < Z.of_nat (length x) -> set1 x i v = Return (<[Z.to_nat i := v]> x).
Proof. intros Hi. unfold set1. rewrite np_index_nonneg by lia. reflexivity. Qed.

Lemma set_row_eval (U : ndarray F) (j : Z) (row : list F) :
  0 <= j < Z.of_nat (nrows U) ->
  set_row U j row = Return (mk_ndarray (ncols U) (<[Z.to_nat j := row]> (rows U))).
Proof. intros Hj. unfold set_row. rewrite np_index_nonneg by lia. reflexivity. Qed.

End SolverFacts.

(** ** Facts on the recurrence *)

Section RecurrenceFacts.
Context {F : Type} `{PyFloat F}.
Variables (alphaprime dx2 dt bl br : F).

Lemma length_rate_array (row : list F) :
  length (rate_array alphaprime dx2 bl br row) = length row.
Proof. unfold rate_array. apply length_imap. Qed.

Lemma length_next_row (row : list F) :
  length (next_row alphaprime dx2 dt bl br row) = length row.
Proof.
  unfold next_row. rewrite length_zip_with, length_map, length_rate_array. lia.
Qed.

Lemma lookup_rate_array (row : list F) (i : nat) (u : F) :
  row !! i = Some u ->
  rate_array alphaprime dx2 bl br row !! i
  = Some (rate_at alphaprime dx2 bl br row i u).
Proof. intros Hu. unfold rate_array. rewrite list_lookup_imap, Hu. reflexivity. Qed.

Lemma lookup_next_row (row : list F) (i : nat) (u : F) :
  row !! i = Some u ->
  next_row alphaprime dx2 dt bl br row !! i
  = Some (fadd u (fmul (rate_at alphaprime dx2 bl br row i u) dt)).
Proof.
  intros Hu. unfold next_row.
  rewrite lookup_zip_with, Hu. simpl.
  rewrite list_lookup_fmap, (lookup_rate_array _ _ _ Hu). reflexivity.
Qed.

Lemma length_evolve (k : nat) (row : list F) :
  length (evolve alphaprime dx2 dt bl br k row) = length row.
Proof. induction k as [|k IH]; simpl; [reflexivity|]. rewrite length_next_row. exact IH. Qed.

End RecurrenceFacts.

(** ** The stepping loop computes the recurrence *)

Section Stepping.
Context {F : Type} `{PyFloat F}.
Variables (alphaprime dx dx2 dt bl br : F).
Hypothesis Hdx2 : pow2 dx = Return dx2.

Lemma second_difference_eval (a b c : F) :
  second_difference alphaprime dx a b c
  = Return (fmul alphaprime (fdiv (fadd (fsub a (fmul (flit 2) b)) c) dx2)).
Proof using Hdx2. unfold second_difference. rewrite Hdx2. reflexivity. Qed.

(** The loop over the interior nodes, then the two edge nodes, leave in
    [x] the rate array of row [j], whatever [x] held before. *)
Lemma rates_eval (U : ndarray F) (n : nat) (m j : Z) (row x : list F) :
  2 <= m -> shaped U n (Z.to_nat m) -> 0 <= j ->
  rows U !! Z.to_nat j = Some row -> length x = Z.to_nat m ->
  rates alphaprime dx bl br m U j x
  = Return (rate_array alphaprime dx2 bl br row).
Proof using Hdx2.
  intros Hm HU Hj Hrow Hx.
  assert (Hlen : length row = Z.to_nat m) by (destruct HU as (_ & _ & HU); eauto).
  unfold rates.
  pose (P := fun (i : Z) (y : list F) =>
               length y = Z.to_nat m /\
               forall k u, (1 <= k)%nat -> Z.of_nat k < i -> row !! k = Some u ->
                           y !! k = Some (rate_at alphaprime dx2 bl br row k u)).
  destruct (for_each_range P (interior alphaprime dx U j) 1 (m - 1) x)
    as (y & Hy & Hlen_y & Hrates); [lia | split; [exact Hx | intros; lia] | |].
  { intros i y Hi [Hly Hprev].
    destruct (lookup_lt_is_Some_2 row (Z.to_nat (i + 1))) as [a Ha]; [lia|].
    destruct (lookup_lt_is_Some_2 row (Z.to_nat i)) as [b Hb]; [lia|].
    destruct (lookup_lt_is_Some_2 row (Z.to_nat (i - 1))) as [c Hc]; [lia|].
    unfold interior.
    rewrite (get2_eval U n _ j (i + 1) row a HU) by (lia || assumption). simpl.
    rewrite (get2_eval U n _ j i row b HU) by (lia || assumption). simpl.
    rewrite (get2_eval U n _ j (i - 1) row c HU) by (lia || assumption). simpl.
    rewrite second_difference_eval. simpl.
    rewrite set1_eval by lia. eexists. split; [reflexivity|].
    split; [rewrite length_insert; exact Hly|].
    intros k u Hk1 Hki Hu.
    destruct (decide (k = Z.to_nat i)) as [->|Hne].
    - rewrite list_lookup_insert_eq by lia. f_equal.
      assert (u = b) by congruence. subst u.
      unfold rate_at, right_of, left_of.
      replace (S (Z.to_nat i)) with (Z.to_nat (i + 1)) by lia. rewrite Ha.
      destruct (Z.to_nat i) as [|p] eqn:Hp; [lia|].
      replace p with (Z.to_nat (i - 1)) by lia. rewrite Hc. reflexivity.
    - rewrite list_lookup_insert_ne by lia. apply Hprev; [lia|lia|exact Hu]. }
  rewrite Hy. simpl.
  destruct (lookup_lt_is_Some_2 row 0) as [u0 Hu0]; [lia|].
  destruct (lookup_lt_is_Some_2 row 1) as [u1 Hu1]; [lia|].
  destruct (lookup_lt_is_Some_2 row (Z.to_nat (m - 1))) as [ul Hul]; [lia|].
  destruct (lookup_lt_is_Some_2 row (Z.to_nat (m - 2))) as [uk Huk]; [lia|].
  rewrite (get2_eval U n _ j 1 row u1 HU) by (lia || assumption). simpl.
  rewrite (get2_eval U n _ j 0 row u0 HU) by (lia || assumption). simpl.
  rewrite second_difference_eval. simpl.
  rewrite set1_eval by lia. simpl.
  rewrite (get2_eval U n _ j (m - 1) row ul HU) by (lia || assumption). simpl.
  rewrite (get2_eval U n _ j (m - 2) row uk HU) by (lia || assumption). simpl.
  rewrite second_difference_eval. simpl.
  rewrite set1_eval by (rewrite length_insert; lia). f_equal.
  apply list_eq. intros k.
  destruct (decide (k < Z.to_nat m)%nat) as [Hk|Hk].
  2:{ rewrite !lookup_ge_None_2; [reflexivity | |].
      - rewrite length_rate_array. lia.
      - rewrite !length_insert. lia. }
  destruct (lookup_lt_is_Some_2 row k) as [u Hu]; [lia|].
  rewrite (lookup_rate_array _ _ _ _ _ _ _ Hu).
  destruct (decide (k = Z.to_nat (m - 1))) as [->|Hlast].
  - rewrite list_lookup_insert_eq by (rewrite length_insert; lia). f_equal.
    assert (u = ul) by congruence. subst u.
    unfold rate_at, right_of, left_of.
    rewrite (lookup_ge_None_2 row (S (Z.to_nat (m - 1)))) by lia. simpl.
    destruct (Z.to_nat (m - 1)) as [|p] eqn:Hp; [lia|].
    replace p with (Z.to_nat (m - 2)) by lia. rewrite Huk. reflexivity.
  - rewrite list_lookup_insert_ne by lia.
    destruct (decide (k = 0%nat)) as [->|Hfirst].
    + rewrite list_lookup_insert_eq by lia. f_equal.
      assert (u = u0) by congruence. subst u.
      unfold rate_at, right_of, left_of. rewrite Hu1. reflexivity.
    + rewrite list_lookup_insert_ne by lia. apply Hrates; [lia|lia|exact Hu].
Qed.

(** One pass over [j] writes row [j + 1] and no other row. *)
Lemma time_loop_body_eval (U : ndarray F) (n : nat) (m j : Z) (row x : list F) :
  2 <= m -> shaped U n (Z.to_nat m) -> 0 <= j -> j + 1 < Z.of_nat n ->
  rows U !! Z.to_nat j = Some row -> length x = Z.to_nat m ->
  time_loop_body alphaprime dx dt bl br m j (U, x)
  = Return (mk_ndarray (ncols U)
              (<[Z.to_nat (j + 1) := next_row alphaprime dx2 dt bl br row]> (rows U)),
            rate_array alphaprime dx2 bl br row).
Proof using Hdx2.
  intros Hm HU Hj Hn Hrow Hx. unfold time_loop_body.
  rewrite (rates_eval U n m j row x) by assumption. simpl.
  rewrite (get_row_eval U n _ j row HU) by assumption. simpl.
  rewrite set_row_eval by (destruct HU as (-> & _); lia). reflexivity.
Qed.

Lemma shaped_insert (U : ndarray F) (n m r : nat) (row : list F) :
  shaped U n m -> length row = m ->
  shaped (mk_ndarray (ncols U) (<[r := row]> (rows U))) n m.
Proof.
  intros (Hn & Hm & Hrows) Hrow. unfold shaped, nrows in *. simpl.
  rewrite length_insert. repeat split; [assumption..|].
  intros k row' Hk. destruct (decide (r = k)) as [->|Hne].
  - apply lookup_lt_Some in Hk as Hlt. rewrite length_insert in Hlt.
    rewrite list_lookup_insert_eq in Hk by exact Hlt. congruence.
  - rewrite list_lookup_insert_ne in Hk by exact Hne. eauto.
Qed.

(** The whole loop: with at least two nodes it runs to the end, and row
    [j] of the field is the [j]-th update of the initial row. *)
Lemma time_loop_eval (U0 : ndarray F) (n : nat) (m : Z) (x : list F) (row0 : list F) :
  2 <= m -> shaped U0 n (Z.to_nat m) -> length x = Z.to_nat m ->
  rows U0 !! 0%nat = Some row0 ->
  exists U x',
    time_loop alphaprime dx dt bl br m n U0 x = Return (U, x')
    /\ shaped U n (Z.to_nat m)
    /\ forall j, (j < n)%nat ->
         rows U !! j = Some (evolve alphaprime dx2 dt bl br j row0).
Proof using Hdx2.
  intros Hm HU0 Hx Hrow0. unfold time_loop.
  apply lookup_lt_Some in Hrow0 as Hn.
  destruct HU0 as (Hn0 & Hm0 & Hrows0). unfold nrows in Hn0. rewrite Hn0 in Hn.
  pose (P := fun (k : Z) (s : ndarray F * list F) =>
               shaped (fst s) n (Z.to_nat m) /\ length (snd s) = Z.to_nat m /\
               forall j, Z.of_nat j <= k ->
                 rows (fst s) !! j = Some (evolve alphaprime dx2 dt bl br j row0)).
  destruct (for_each_range P (time_loop_body alphaprime dx dt bl br m)
              0 (Z.of_nat n - 1) (U0, x)) as ([U x'] & Hrun & HU & _ & Hrows).
  - lia.
  - repeat split; try assumption. simpl. intros j Hj.
    replace j with 0%nat by lia. exact Hrow0.
  - intros k [U y] Hk (HU & Hy & Hrows). simpl in HU, Hy, Hrows.
    pose proof (Hrows (Z.to_nat k) ltac:(lia)) as Hrow.
    rewrite (time_loop_body_eval U n m k _ y Hm HU ltac:(lia) ltac:(lia) Hrow Hy).
    eexists. split; [reflexivity|]. unfold P. simpl. split; [|split].
    + apply shaped_insert; [exact HU|].
      rewrite length_next_row, length_evolve. eauto.
    + rewrite length_rate_array, length_evolve. eauto.
    + intros j Hj. destruct (decide (j = Z.to_nat (k + 1))) as [->|Hne].
      * rewrite list_lookup_insert_eq by (destruct HU as (Hn' & _); unfold nrows in Hn'; lia).
        replace (Z.to_nat (k + 1)) with (S (Z.to_nat k)) by lia. reflexivity.
      * rewrite list_lookup_insert_ne by lia. apply Hrows. lia.
  - exists U, x'. split; [exact Hrun|]. split; [exact HU|].
    intros j Hj. apply Hrows. lia.
Qed.

(** With fewer than two rows the loop does nothing. *)
Lemma time_loop_short (U0 : ndarray F) (n : nat) (m : Z) (x : list F) :
  (n <= 1)%nat -> time_loop alphaprime dx dt bl br m n U0 x = Return (U0, x).
Proof. intros Hn. unfold time_loop. rewrite range_nil by lia. reflexivity. Qed.

(** With fewer than two nodes the first pass reads a cell that does not
    exist. *)
Lemma time_loop_one_node (U0 : ndarray F) (n : nat) (m : Z) (x : list F) :
  m < 2 -> (2 <= n)%nat -> shaped U0 n (Z.to_nat m) ->
  time_loop alphaprime dx dt bl br m n U0 x = Raise IndexError.
Proof.
  intros Hm Hn HU0. unfold time_loop.
  apply for_each_raise_first; [lia|].
  unfold time_loop_body, rates. rewrite range_nil by lia. simpl.
  rewrite (get2_beyond U0 n (Z.to_nat m)) by (lia || assumption). reflexivity.
Qed.

End Stepping.

(** ** What a successful [solve] has computed *)

Section Solved.
Context {F : Type} `{PyFloat F}.

Lemma length_fill_slice (row : list F) (a b : Z) (v : F) :
  length (fill_slice row a b v) = length row.
Proof. unfold fill_slice. apply length_imap. Qed.


Lemma hat_function_zeros (self : Heat_Eqn F) (n m : nat) (U : ndarray F) :
  hat_function self (np_zeros n m) = Return U ->
  shaped U n m /\
  ((1 <= n)%nat -> exists row0, initial_row self m = Return row0
                                /\ rows U !! 0%nat = Some row0) /\
  (Hat_Function self = true -> (1 <= n)%nat).
Proof.
  unfold hat_function, initial_row. destruct (Hat_Function self).
  - intros Hr. bind_inv Hr. rewrite Ha.
    bind_inv Hr. bind_inv Hr. rewrite Ha1. simpl.
    unfold get_row in Ha0. bind_inv Ha0.
    unfold set_row in Hr. rewrite Ha2 in Hr. simpl in Hr. injection Hr as <-.
    unfold np_index, nrows, np_zeros in Ha2. simpl in Ha2.
    rewrite length_replicate in Ha2.
    destruct n as [|n]; [discriminate|]. simpl in Ha2. injection Ha2 as <-.
    unfold lookup_cell, np_zeros in Ha0. simpl in Ha0. injection Ha0 as <-.
    split; [|split].
    + apply (shaped_insert (np_zeros (S n) m) (S n) m);
        [apply np_zeros_shaped|].
      rewrite length_fill_slice. apply length_replicate.
    + intros _. eexists. split; reflexivity.
    + intros _. lia.
  - intros [= <-]. split; [apply np_zeros_shaped|]. split; [|discriminate].
    intros Hn. eexists. split; [reflexivity|].
    unfold np_zeros. simpl. apply lookup_replicate. split; [reflexivity | lia].
Qed.

Lemma np_empty_Return (m : Z) (x : list F) :
  np_empty m = Return x -> 0 <= m /\ length x = Z.to_nat m.
Proof.
  unfold np_empty. destruct (Z.ltb_spec m 0); [discriminate|].
  intros [= <-]. rewrite length_replicate. auto.
Qed.

Lemma time_step_dx2 (self : Heat_Eqn F) (k : F) (c rho : option F)
    (alphaprime dx dt : F) :
  time_step self k c rho = Return (alphaprime, dx, dt) ->
  exists dx2, pow2 dx = Return dx2.
Proof.
  unfold time_step. intros Hr. do 5 bind_inv Hr. bind_inv Hr.
  injection Hr as <- <- <-. eauto.
Qed.

Theorem solve_solved (self : Heat_Eqn F) (k : F) (c rho : option F) (s : solution) :
  solve self k c rho = Return s ->
  exists alphaprime dx dx2 dt n, solved self k c rho s alphaprime dx dx2 dt n.
Proof.
  unfold solve. intros Hr.
  bind_inv Hr. destruct a as [[alphaprime dx] dt].
  bind_inv Hr. rename a into n. bind_inv Hr. rename a into x.
  bind_inv Hr. rename a into U0. bind_inv Hr. destruct a as [U x'].
  injection Hr as <-. simpl.
  destruct (time_step_dx2 _ _ _ _ _ _ _ Ha) as [dx2 Hdx2].
  apply np_empty_Return in Ha1 as [Hm Hx]. rewrite Hx in Ha2.
  apply hat_function_zeros in Ha2 as (HU0 & Hrow0 & Hhat).
  exists alphaprime, dx, dx2, dt, n.
  destruct (decide (n <= 1)%nat) as [Hn|Hn].
  - rewrite time_loop_short in Ha3 by exact Hn. injection Ha3 as <- <-.
    split; simpl; try assumption || reflexivity.
    + intros Hn1. destruct (Hrow0 Hn1) as (row0 & Hinit & Hrow).
      exists row0. split; [exact Hinit|]. intros j Hj.
      replace j with 0%nat by lia. exact Hrow.
    + intros; lia.
  - destruct (Z.ltb_spec (Number_Of_Steps self) 2) as [Hm2|Hm2].
    { rewrite (time_loop_one_node _ _ _ _ _ U0 n) in Ha3
        by (lia || assumption). discriminate. }
    destruct (Hrow0 ltac:(lia)) as (row0 & Hinit & Hrow).
    destruct (time_loop_eval alphaprime dx dx2 dt (Left_Boundary self)
                (Right_Boundary self) Hdx2 U0 n (Number_Of_Steps self) x row0)
      as (U' & x'' & Hrun & HU' & Hrows); try assumption.
    rewrite Hrun in Ha3. injection Ha3 as <- <-.
    split; simpl; try assumption || reflexivity.
    + intros _. exists row0. auto.
    + intros _. exact Hm2.
Qed.

End Solved.

(** ** From [solve] to [heateqn] *)

Section Dispatch.
Context {F : Type} `{PyFloat F}.

(** The material is known: its row is the first match of the query. *)
Lemma mat_constants_found (db : list (thermal_prop F)) (self : Heat_Eqn F)
    (r : thermal_prop F) (rest : list (thermal_prop F)) :
  select_material db (lower (Material self)) = r :: rest ->
  mat_constants db self
  = ([], Return (Some (tp_Conductivity r, tp_Diffusivity r, tp_Specific_Heat r,
                       tp_Effusivity r, tp_Density r))).
Proof. intros Hsel. unfold mat_constants. rewrite Hsel. reflexivity. Qed.

(** The material is unknown: the two messages and the list of all
    material names are printed, and [None] is returned. *)
Lemma mat_constants_missing (db : list (thermal_prop F)) (self : Heat_Eqn F) :
  select_material db (lower (Material self)) = [] ->
  mat_constants db self
  = ([Print not_in_database; Print use_one_of; PPrint (map tp_Material db)],
     Return None).
Proof. intros Hsel. unfold mat_constants. rewrite Hsel. reflexivity. Qed.

(** [heateqn] hands the field of [solve] to the caller, or to one of
    the plotting methods. *)
Lemma heateqn_found (db : list (thermal_prop F)) (self : Heat_Eqn F)
    (r : thermal_prop F) (rest : list (thermal_prop F)) (k : F) :
  select_material db (lower (Material self)) = r :: rest ->
  tp_Conductivity r = Some k ->
  heateqn db self
  = match solve self k (tp_Specific_Heat r) (tp_Density r) with
    | Raise e => ([], Raise e)
    | Return s =>
        if Gif self then
          ([Gif_maker (sol_U s) (sol_xf s) (sol_Th s) (sol_frames s)], Return None)
        else if Graph self then
          ([Graph_sketcher (sol_U s) (sol_xf s) (sol_Th s) (sol_frames s)], Return None)
        else ([], Return (Some (sol_U s)))
    end.
Proof.
  intros Hsel Hk. unfold heateqn.
  rewrite (mat_constants_found db self r rest Hsel). simpl. rewrite Hk.
  destruct (solve self k (tp_Specific_Heat r) (tp_Density r)) as [s|e]; simpl;
    [|reflexivity].
  destruct (Gif self); [reflexivity|]. destruct (Graph self); reflexivity.
Qed.

Lemma heateqn_missing (db : list (thermal_prop F)) (self : Heat_Eqn F) :
  select_material db (lower (Material self)) = [] ->
  heateqn db self
  = ([Print not_in_database; Print use_one_of; PPrint (map tp_Material db)],
     Raise TypeError).
Proof.
  intros Hsel. unfold heateqn. rewrite (mat_constants_missing db self Hsel).
  reflexivity.
Qed.

(** A returned field is the field of a solution. *)
Lemma heateqn_returns_solution (db : list (thermal_prop F)) (self : Heat_Eqn F)
    (U : ndarray F) :
  outcome (heateqn db self) = Return (Some U) ->
  exists r rest k s,
    select_material db (lower (Material self)) = r :: rest /\
    tp_Conductivity r = Some k /\
    solve self k (tp_Specific_Heat r) (tp_Density r) = Return s /\
    sol_U s = U /\ Gif self = false /\ Graph self = false.
Proof.
  destruct (select_material db (lower (Material self))) as [|r rest] eqn:Hsel.
  { rewrite (heateqn_missing db self Hsel). discriminate. }
  destruct (tp_Conductivity r) as [k|] eqn:Hk.
  2:{ unfold heateqn. rewrite (mat_constants_found db self r rest Hsel). simpl.
      rewrite Hk. discriminate. }
  rewrite (heateqn_found db self r rest k Hsel Hk).
  destruct (solve self k (tp_Specific_Heat r) (tp_Density r)) as [s|e] eqn:Hs;
    [|discriminate].
  destruct (Gif self); [discriminate|]. destruct (Graph self); [discriminate|].
  intros [= <-]. exists r, rest, k, s. repeat split; assumption.
Qed.



End Dispatch.

(** ** C1: the time step *)



(** ** C2: the stepping loop *)

(** C2.  In the field of every solution, each row after the first is the
    row before it plus [dt] times the rate array of that row: an interior
    node uses the central second difference of its two neighbours, node 0
    takes [Left_Boundary] for the neighbour it lacks and the last node
    takes [Right_Boundary]; the boundary temperatures are operands only,
    the field has no cell for them.  The rate array of pass [j] is a
    function of row [j] alone: two fields of the same shape that agree on
    row [j] give the same array, whatever their other rows hold and
    whatever the buffer held before. *)
Theorem stepping_recurrence {F : Type} `{PyFloat F}
    (self : Heat_Eqn F) (k : F) (c rho : option F) (s : solution) :
  solve self k c rho = Return s ->
  exists alphaprime dx dx2 dt n,
    solved self k c rho s alphaprime dx dx2 dt n /\
    let U := sol_U s in
    let m := Z.to_nat (Number_Of_Steps self) in
    let bl := Left_Boundary self in
    let br := Right_Boundary self in
    (forall j i l u r,
        (S j < n)%nat -> (1 <= i)%nat -> (S i < m)%nat ->
        cell U j (i - 1) = Some l -> cell U j i = Some u -> cell U j (S i) = Some r ->
        cell U (S j) i = Some (forward_step alphaprime dx2 dt r u l)) /\
    (forall j u r,
        (S j < n)%nat -> cell U j 0 = Some u -> cell U j 1 = Some r ->
        cell U (S j) 0 = Some (forward_step alphaprime dx2 dt r u bl)) /\
    (forall j l u,
        (S j < n)%nat -> cell U j (m - 2) = Some l -> cell U j (m - 1) = Some u ->
        cell U (S j) (m - 1) = Some (forward_step alphaprime dx2 dt br u l)) /\
    (forall (U1 U2 : ndarray F) (x1 x2 row : list F) (j : Z),
        2 <= Number_Of_Steps self -> shaped U1 n m -> shaped U2 n m -> 0 <= j ->
        rows U1 !! Z.to_nat j = Some row -> rows U2 !! Z.to_nat j = Some row ->
        length x1 = m -> length x2 = m ->
        rates alphaprime dx bl br (Number_Of_Steps self) U1 j x1
        = rates alphaprime dx bl br (Number_Of_Steps self) U2 j x2).
Proof.
  intros Hs.
  destruct (solve_solved self k c rho s Hs) as (alphaprime & dx & dx2 & dt & n & Hsolved).
  exists alphaprime, dx, dx2, dt, n. split; [exact Hsolved|].
  pose proof (solved_dx2 _ _ _ _ _ _ _ _ _ _ Hsolved) as Hdx2.
  pose proof (solved_shape _ _ _ _ _ _ _ _ _ _ Hsolved) as (_ & _ & Hlen).
  assert (Hnext : forall j row, (S j < n)%nat -> rows (sol_U s) !! j = Some row ->
            rows (sol_U s) !! S j
            = Some (next_row alphaprime dx2 dt (Left_Boundary self)
                      (Right_Boundary self) row)).
  { intros j row Hj Hrow.
    destruct (solved_rows _ _ _ _ _ _ _ _ _ _ Hsolved ltac:(lia))
      as (row0 & _ & Hrows).
    rewrite (Hrows j) in Hrow by lia. injection Hrow as <-.
    rewrite (Hrows (S j)) by lia. reflexivity. }
  cbv zeta. unfold cell, forward_step. repeat split.
  - intros j i l u r Hj Hi1 Him Hl Hu Hr.
    destruct (rows (sol_U s) !! j) as [row|] eqn:Hrow; [|discriminate].
    rewrite (Hnext j row Hj Hrow).
    rewrite (lookup_next_row _ _ _ _ _ _ _ _ Hu). unfold rate_at, right_of, left_of.
    rewrite Hr. destruct i as [|p]; [lia|].
    replace (S p - 1)%nat with p in Hl by lia. rewrite Hl. reflexivity.
  - intros j u r Hj Hu Hr.
    destruct (rows (sol_U s) !! j) as [row|] eqn:Hrow; [|discriminate].
    rewrite (Hnext j row Hj Hrow).
    rewrite (lookup_next_row _ _ _ _ _ _ _ _ Hu). unfold rate_at, right_of, left_of.
    rewrite Hr. reflexivity.
  - intros j l u Hj Hl Hu.
    pose proof (solved_loop _ _ _ _ _ _ _ _ _ _ Hsolved ltac:(lia)) as Hm.
    destruct (rows (sol_U s) !! j) as [row|] eqn:Hrow; [|discriminate].
    rewrite (Hnext j row Hj Hrow).
    rewrite (lookup_next_row _ _ _ _ _ _ _ _ Hu). unfold rate_at, right_of, left_of.
    rewrite (lookup_ge_None_2 row (S (Z.to_nat (Number_Of_Steps self) - 1)))
      by (rewrite (Hlen _ _ Hrow); lia).
    destruct (Z.to_nat (Number_Of_Steps self) - 1)%nat as [|p] eqn:Hp; [lia|].
    replace (Z.to_nat (Number_Of_Steps self) - 2)%nat with p in Hl by lia.
    rewrite Hl. reflexivity.
  - intros U1 U2 x1 x2 row j Hm HU1 HU2 Hj Hrow1 Hrow2 Hx1 Hx2.
    rewrite (rates_eval alphaprime dx dx2 _ _ Hdx2 U1 n _ j row x1) by assumption.
    rewrite (rates_eval alphaprime dx dx2 _ _ Hdx2 U2 n _ j row x2) by assumption.
    reflexivity.
Qed.

Lemma stepping_recurrence_witness :
  exists s : solution,
    solve (F := Q) (Scenario.aluminum 200) Scenario.K (Some Scenario.c)
      (Some Scenario.rho) = Return s /\
    nrows (sol_U s) = 4%nat /\
    cell (sol_U s) 2 1 = Some (25 # 1)%Q /\
    exists alphaprime dx dx2 dt n,
      solved (Scenario.aluminum 200) Scenario.K (Some Scenario.c)
        (Some Scenario.rho) s alphaprime dx dx2 dt n.
Proof.
  eexists. split; [vm_compute; reflexivity|].
  split; [reflexivity|]. split; [reflexivity|].
  match goal with
  | |- exists a b c d n, solved _ _ _ _ ?s a b c d n =>
      assert (Hs : solve (F := Q) (Scenario.aluminum 200) Scenario.K
                     (Some Scenario.c) (Some Scenario.rho) = Return s)
        by (vm_compute; reflexivity)
  end.
  destruct (stepping_recurrence (F := Q) _ _ _ _ _ Hs)
    as (alphaprime & dx & dx2 & dt & n & Hsolved & _).
  exists alphaprime, dx, dx2, dt, n. exact Hsolved.
Defined.

(** ** C4: the hat function *)





(** [int] on an exact number truncates toward zero. *)
Lemma exact_int_of_float (q : Q) :
  Exact.int_of_float q = if Qle_bool 0 q then Qfloor q else Qceiling q.
Proof.
  destruct q as [p d]. unfold Exact.int_of_float, Qceiling, Qfloor, Qle_bool.
  cbn [Qnum Qden Qopp]. rewrite Z.mul_1_r.
  destruct (Z.leb_spec (0 * Z.pos d) p) as [Hp|Hp].
  - apply Z.quot_div_nonneg; lia.
  - rewrite <- (Z.opp_involutive p) at 1. rewrite Z.quot_opp_l by lia.
    f_equal. apply Z.quot_div_nonneg; lia.
Qed.




(** A pulse left of the rod is written at its right end: location -0.2
    with plateau 2 gives the slice [-4:-2], nodes 6 and 7. *)
Example hat_wraps_to_the_right_end :
  exists U,
    outcome (run (F := Q) data "Aluminum" 10 "ellipse" [1%Q; 1%Q] 1%Q 100%Q 100%Q 100%Q
               false false true (Some 5%Q) (Some (-2 # 10)%Q) (Some 2%Q))
    = Return (Some U) /\
    rows U !! 0%nat = Some [0; 0; 0; 0; 0; 0; 5; 5; 0; 0]%Q.
Proof. eexists. split; [vm_compute; reflexivity | reflexivity]. Qed.

(** ** C5: what the program does with a bad configuration *)


Section NoValidation.
Context {F : Type} `{PyFloat F}.

(** The constructor never fails; it prints its warning exactly when the
    hat flag is set and one of the three parameters is missing. *)
Lemma init_returns (Material : string) (Number_Of_Steps : Z) (Shape : string)
    (Shape_Lengths : list F) (Length Time Left_Boundary Right_Boundary : F)
    (Gif Graph Hat_Function : bool)
    (Temperature_0 Location_of_Temp Length_Of_Hat_Function : option F) :
  init Material Number_Of_Steps Shape Shape_Lengths Length Time Left_Boundary
    Right_Boundary Gif Graph Hat_Function Temperature_0 Location_of_Temp
    Length_Of_Hat_Function
  = (if Hat_Function && (is_None Temperature_0 || is_None Location_of_Temp
                         || is_None Length_Of_Hat_Function)
     then [Print missing_parameter] else [],
     Return (mk_Heat_Eqn Material Number_Of_Steps Shape
               (if (length Shape_Lengths =? 1)%nat
                then [VTuple (map VFloat Shape_Lengths); VInt 0]
                else map VFloat Shape_Lengths)
               Length Time Left_Boundary Right_Boundary Gif Graph Hat_Function
               Temperature_0 Location_of_Temp Length_Of_Hat_Function)).
Proof.
  unfold init. rewrite length_map.
  destruct (Hat_Function && _); reflexivity.
Qed.




End NoValidation.



(** ** C6: an unknown material *)

(** C6, on the code.  For a material that is not in the table,
    [mat_constants] prints its two messages and the names of all
    materials and returns [None], as its test expects; [heateqn] then
    fails on unpacking that [None] (line 123), before the test of line 124
    that was to print the error message and return: the run ends in a
    [TypeError], not in the result the program announces.  No time step
    has been computed at that point. *)
Theorem unknown_material_raises_TypeError :
  mat_constants (data (F := float)) aluminium
  = ([Print not_in_database; Print use_one_of; PPrint (map tp_Material (data (F := float)))],
     Return None)
  /\ heateqn (data (F := float)) aluminium
     = ([Print not_in_database; Print use_one_of; PPrint (map tp_Material (data (F := float)))],
        Raise TypeError)
  /\ In "Aluminum"%string (map tp_Material (data (F := float))).
Proof.
  split; [|split].
  - apply mat_constants_missing. reflexivity.
  - apply heateqn_missing. reflexivity.
  - vm_compute. tauto.
Qed.

(** ** C9: a shape given by one length *)

(** C9, on the code.  The constructor stores, for a one-element tuple
    [(a,)], the pair of that tuple and the integer 0, not the pair
    [(a, 0)]: line 53 binds [a] to the whole tuple.  [area] then unpacks a
    tuple where it expects the side length, and the square of a tuple is
    a [TypeError] for a triangle and for a hexagon alike. *)
Theorem single_length_is_stored_nested {F : Type} `{PyFloat F} `{PyMath F}
    (Material : string) (Number_Of_Steps : Z) (Shape : string) (a : F)
    (Length Time Left_Boundary Right_Boundary : F) (Gif Graph : bool) :
  exists self,
    outcome (init Material Number_Of_Steps Shape [a] Length Time Left_Boundary
               Right_Boundary Gif Graph false None None None)
    = Return self /\
    Shape_Lengths self = [VTuple [VFloat a]; VInt 0] /\
    Shape_Lengths self <> [VFloat a; VInt 0] /\
    (lower Shape = "triangle"%string \/ lower Shape = "hexagon"%string ->
     area self = ([], Raise TypeError)).
Proof.
  eexists. split; [reflexivity|]. split; [reflexivity|]. split; [discriminate|].
  intros [Hs|Hs]; unfold area; simpl; rewrite Hs; reflexivity.
Qed.

(** The triangle of side 2: the closed form is [sqrt(3)/4 * 4]. *)
Example triangle_of_side_two :
  exists self,
    outcome (init "Aluminum" 1000 "triangle" [2%float] 1%float 1000%float
               100%float 100%float false false false None None None)
    = Return self /\
    Shape_Lengths self = [VTuple [VFloat 2%float]; VInt 0] /\
    area self = ([], Raise TypeError).
Proof. eexists. repeat split. Qed.

(** ** C8: the area of the cross section *)

Section Area.
Context {F : Type} `{PyFloat F} `{PyMath F}.

Lemma area_by_lower_case (shape shape' : string) (a b : F) (self : Heat_Eqn F) :
  lower shape = lower shape' ->
  area (with_shape shape a b self) = area (with_shape shape' a b self).
Proof. intros Hl. unfold area. simpl. rewrite Hl. reflexivity. Qed.

Lemma area_closed_forms (shape : string) (a b : F) (self : Heat_Eqn F) :
  area (with_shape shape a b self)
  = if String.eqb (lower shape) "ellipse" then
      ([], Return (VFloat (fmul (fmul np_pi a) b)))
    else if String.eqb (lower shape) "rectangle" then
      ([], Return (VFloat (fmul a b)))
    else if String.eqb (lower shape) "triangle" then
      ([], a2 <- pow2 a ;; Return (VFloat (fmul (fdiv sqrt3 (flit 4)) a2)))
    else if String.eqb (lower shape) "hexagon" then
      ([], a2 <- pow2 a ;;
           Return (VFloat (fmul (fdiv (fmul (flit 3) sqrt3) (flit 2)) a2)))
    else ([Print unsupported_shape], Return VNone).
Proof.
  unfold area. simpl.
  destruct (String.eqb (lower shape) "ellipse"); [reflexivity|].
  destruct (String.eqb (lower shape) "rectangle"); [reflexivity|].
  destruct (String.eqb (lower shape) "triangle").
  { unfold lift. destruct (pow2 a); reflexivity. }
  destruct (String.eqb (lower shape) "hexagon").
  { unfold lift. destruct (pow2 a); reflexivity. }
  reflexivity.
Qed.

End Area.

Lemma lower_idempotent (s : string) : lower (lower s) = lower s.
Proof.
  induction s as [|ch s IH]; [reflexivity|]. simpl. rewrite IH. f_equal.
  clear. unfold lower_ascii.
  destruct (((65 <=? nat_of_ascii ch) && (nat_of_ascii ch <=? 90))%nat) eqn:Hc.
  - apply andb_true_iff in Hc as [H1 H2].
    apply Nat.leb_le in H1. apply Nat.leb_le in H2.
    rewrite nat_ascii_embedding by lia.
    destruct (Nat.leb_spec (nat_of_ascii ch + 32) 90) as [Hle|Hgt]; [lia|].
    rewrite andb_false_r. reflexivity.
  - rewrite Hc. reflexivity.
Qed.

(** C8.  For lengths stored as the pair [(a, b)], [area] returns
    [np.pi*a*b] for an ellipse, [a*b] for a rectangle,
    [(3**(1/2)/4) * a**2] for a triangle and [(3*3**(1/2)/2) * a**2] for a
    hexagon (where [a**2] is the float power, which Python refuses to
    return when it overflows), and for every other name it prints its
    message and returns [None]; the name is compared in lower case, so
    names that differ in case only give the same result.  In binary64,
    as the tests of the source have it: [area("ellipse", (2.0, 3.0))]
    is [np.pi*2*3], which is [6*np.pi], also when the name is written
    "Ellipse"; [area("ellipse", (2.0, 0.0))] is [0.0]; and
    [area("Pentagon", (2.0, 1.0))] is [None]. *)
Theorem area_closed_form {F : Type} `{PyFloat F} `{PyMath F}
    (shape : string) (a b : F) (self : Heat_Eqn F) :
  (lower shape = "ellipse"%string ->
   area (with_shape shape a b self) = ([], Return (VFloat (fmul (fmul np_pi a) b)))) /\
  (lower shape = "rectangle"%string ->
   area (with_shape shape a b self) = ([], Return (VFloat (fmul a b)))) /\
  (lower shape = "triangle"%string ->
   forall a2, pow2 a = Return a2 ->
   area (with_shape shape a b self)
   = ([], Return (VFloat (fmul (fdiv sqrt3 (flit 4)) a2)))) /\
  (lower shape = "hexagon"%string ->
   forall a2, pow2 a = Return a2 ->
   area (with_shape shape a b self)
   = ([], Return (VFloat (fmul (fdiv (fmul (flit 3) sqrt3) (flit 2)) a2)))) /\
  (lower shape <> "ellipse"%string -> lower shape <> "rectangle"%string ->
   lower shape <> "triangle"%string -> lower shape <> "hexagon"%string ->
   area (with_shape shape a b self) = ([Print unsupported_shape], Return VNone)) /\
  (forall shape', lower shape' = lower shape ->
   area (with_shape shape' a b self) = area (with_shape shape a b self)) /\
  area (with_shape "ellipse" 2%float 3%float aluminium)
  = ([], Return (VFloat (np_pi * 2 * 3)%float)) /\
  (np_pi * 2 * 3 = 6 * np_pi)%float /\
  area (with_shape "Ellipse" 2%float 3%float aluminium)
  = ([], Return (VFloat (6 * np_pi)%float)) /\
  area (with_shape "ellipse" 2%float 0%float aluminium) = ([], Return (VFloat 0%float)) /\
  area (with_shape "Pentagon" 2%float 1%float aluminium)
  = ([Print unsupported_shape], Return VNone).
Proof.
  split; [intros Hl; rewrite area_closed_forms, Hl; reflexivity|].
  split; [intros Hl; rewrite area_closed_forms, Hl; reflexivity|].
  split; [intros Hl a2 Ha; rewrite area_closed_forms, Hl, Ha; reflexivity|].
  split; [intros Hl a2 Ha; rewrite area_closed_forms, Hl, Ha; reflexivity|].
  split.
  { intros H1 H2 H3 H4. rewrite area_closed_forms.
    apply String.eqb_neq in H1, H2, H3, H4. rewrite H1, H2, H3, H4. reflexivity. }
  split; [intros shape' Hl; apply area_by_lower_case; exact Hl|].
  repeat split.
Qed.

(** ** C10: the pulse parameters of a run without hat function *)

Section Pulse.
Context {F : Type} `{PyFloat F}.

Lemma solve_field_same (h h' : Heat_Eqn F) (k : F) (c rho : option F) :
  same_but_pulse h h' -> Hat_Function h = false ->
  rmap field_part (solve h k c rho) = rmap field_part (solve h' k c rho).
Proof.
  intros (_ & Hm & _ & _ & Hxf & Htf & Hbl & Hbr & _ & _ & Hhat) Hoff.
  assert (Hts : time_step h' k c rho = time_step h k c rho)
    by (unfold time_step; rewrite Hm, Hxf; reflexivity).
  unfold solve, hat_function.
  rewrite Hts, <- Hhat, Hoff, <- Hm, <- Hxf, <- Htf, <- Hbl, <- Hbr.
  destruct (time_step h k c rho) as [[[alphaprime dx] dt]|]; simpl; [|reflexivity].
  destruct (arange_len (Time h) dt) as [n|]; simpl; [|reflexivity].
  destruct (np_empty (Number_Of_Steps h)) as [x|]; simpl; [|reflexivity].
  destruct (time_loop _ _ _ _ _ _ _ _ _) as [[U x']|]; reflexivity.
Qed.

Lemma heateqn_field_same (db : list (thermal_prop F)) (h h' : Heat_Eqn F) :
  same_but_pulse h h' -> Hat_Function h = false ->
  outcome (heateqn db h) = outcome (heateqn db h') /\
  map forget_Th (output (heateqn db h)) = map forget_Th (output (heateqn db h')).
Proof.
  intros Hsame Hoff.
  pose proof Hsame as (Hmat & _ & _ & _ & _ & _ & _ & _ & Hgif & Hgraph & _).
  destruct (select_material db (lower (Material h))) as [|r rest] eqn:Hsel.
  { rewrite (heateqn_missing db h Hsel).
    rewrite Hmat in Hsel. rewrite (heateqn_missing db h' Hsel). auto. }
  destruct (tp_Conductivity r) as [k|] eqn:Hk.
  2:{ unfold heateqn. rewrite (mat_constants_found db h r rest Hsel).
      rewrite Hmat in Hsel. rewrite (mat_constants_found db h' r rest Hsel).
      simpl. rewrite Hk. auto. }
  rewrite (heateqn_found db h r rest k Hsel Hk).
  rewrite Hmat in Hsel. rewrite (heateqn_found db h' r rest k Hsel Hk).
  pose proof (solve_field_same h h' k (tp_Specific_Heat r) (tp_Density r) Hsame Hoff)
    as Hf.
  rewrite <- Hgif, <- Hgraph.
  destruct (solve h k _ _) as [s|e], (solve h' k _ _) as [s'|e'];
    simpl in Hf; try discriminate.
  - injection Hf as HU Hx Hn. rewrite HU, Hx, Hn.
    destruct (Gif h); [auto|]. destruct (Graph h); auto.
  - injection Hf as ->. auto.
Qed.

End Pulse.

(** C10.  Two objects that differ at most in the three pulse parameters
    and have the hat flag off are solved alike: [solve] raises the same
    exception for both or gives the same field, rod length and number of
    frames, and [heateqn] ends alike and emits the same events up to the
    highest temperature handed to the plotting method.  That temperature
    is computed from [Temperature_0] and the two boundary temperatures
    whatever the flag says, so it can differ between the two runs: with
    boundaries at 100 it is 100 without [Temperature_0] and 500 with
    [Temperature_0 = 500]. *)
Theorem pulse_is_ignored_without_hat {F : Type} `{PyFloat F}
    (db : list (thermal_prop F)) (h h' : Heat_Eqn F) :
  same_but_pulse h h' ->
  Hat_Function h = false ->
  (forall k c rho,
     rmap field_part (solve h k c rho) = rmap field_part (solve h' k c rho)) /\
  outcome (heateqn db h) = outcome (heateqn db h') /\
  map forget_Th (output (heateqn db h)) = map forget_Th (output (heateqn db h')) /\
  (forall k c rho s, solve h k c rho = Return s ->
     sol_Th s = match Temperature_0 h with
                | None =>
                    if fleb (Left_Boundary h) (Right_Boundary h)
                    then Right_Boundary h else Left_Boundary h
                | Some t0 =>
                    if fltb (Left_Boundary h) t0 && fltb (Right_Boundary h) t0 then t0
                    else if fleb (Left_Boundary h) (Right_Boundary h)
                         then Right_Boundary h else Left_Boundary h
                end) /\
  (exists U U',
     heateqn data (plotted None) = ([Graph_sketcher U 1 100 3], Return None)%Q /\
     heateqn data (plotted (Some 500%Q))
     = ([Graph_sketcher U' 1 500 3], Return None)%Q /\
     U = U').
Proof.
  intros Hsame Hoff.
  split; [intros; apply solve_field_same; assumption|].
  destruct (heateqn_field_same db h h' Hsame Hoff) as [Hout Hev].
  split; [exact Hout|]. split; [exact Hev|]. split.
  - intros k c rho s Hs.
    destruct (solve_solved h k c rho s Hs) as (a & dx & dx2 & dt & n & Hsolved).
    rewrite (solved_Th _ _ _ _ _ _ _ _ _ _ Hsolved). reflexivity.
  - eexists. eexists. split; [vm_compute; reflexivity|].
    split; [vm_compute; reflexivity | reflexivity].
Qed.

Lemma pulse_is_ignored_without_hat_witness :
  same_but_pulse (plotted None) (plotted (Some 500%Q)) /\
  Hat_Function (plotted None) = false /\
  map forget_Th (output (heateqn data (plotted None)))
  = map forget_Th (output (heateqn data (plotted (Some 500%Q)))).
Proof.
  assert (Hsame : same_but_pulse (plotted None) (plotted (Some 500%Q)))
    by (repeat split).
  split; [exact Hsame|]. split; [reflexivity|].
  apply (pulse_is_ignored_without_hat data _ _ Hsame eq_refl).
Defined.

(** * Exact arithmetic *)

(** ** The operations, up to [==] *)

Section ExactArithmetic.
Local Open Scope Q_scope.










End ExactArithmetic.

(** ** C7: the shape of the field *)

Section Shape.
Local Open Scope Q_scope.



End Shape.



(** ** C3: equal boundary temperatures *)

Section Heating.
Local Open Scope Q_scope.
Variables (alphaprime dx2 dt bl br T : Q).
Hypothesis Halpha : ~ alphaprime == 0.
Hypothesis Hdx2 : ~ dx2 == 0.
Hypothesis Hdt : dt == dx2 / (2 * alphaprime).
Hypothesis Hbl : bl == T.
Hypothesis Hbr : br == T.
Hypothesis HT : 0 <= T.

Local Abbreviation step := (next_row alphaprime dx2 dt bl br).


(** *** Bounds *)





(** *** Monotonicity *)



(** *** Convergence *)




End Heating.

Section HeatingRun.
Local Open Scope Q_scope.




End HeatingRun.

Section HeatingClaim.
Local Open Scope Q_scope.


End HeatingClaim.



Lemma area_closed_form_witness :
  lower "Ellipse" = "ellipse"%string /\
  area (with_shape "Ellipse" 2%float 3%float aluminium)
  = ([], Return (VFloat (np_pi * 2 * 3)%float)).
Proof.
  split; [reflexivity|].
  exact (proj1 (area_closed_form "Ellipse" 2%float 3%float aluminium) eq_refl).
Defined.

Lemma single_length_is_stored_nested_witness :
  lower "Triangle" = "triangle"%string /\
  exists self,
    outcome (init "Aluminum" 1000 "Triangle" [2%float] 1%float 1000%float
               100%float 100%float false false false None None None)
    = Return self /\
    area self = ([], Raise TypeError).
Proof.
  split; [reflexivity|].
  destruct (single_length_is_stored_nested (F := float) "Aluminum" 1000 "Triangle"
              2%float 1%float 1000%float 100%float 100%float false false)
    as (self & Hinit & _ & _ & Harea).
  exists self. split; [exact Hinit|]. apply Harea. left. reflexivity.
Defined.

(** ** The solver returns *)

Section Returns.
Local Open Scope Q_scope.




End Returns.



(** ** The table lookup *)

(** [mat_constants] finds a material whatever the case of its name and
    returns the five stored constants: in binary64, for "Aluminum",
    [(225.94, 91, 921, 23688, 2698)], as the test [testHeatEqnMatCon]
    expects of the conductivity. *)
#[warnings="-inexact-float"]
Theorem mat_constants_aluminum :
  (forall (F : Type) (db : list (thermal_prop F)) (self self' : Heat_Eqn F),
     lower (Material self) = lower (Material self') ->
     mat_constants db self = mat_constants db self') /\
  (forall name,
     In name ["Aluminum"; "aluminum"; "ALUMINUM"]%string ->
     mat_constants (F := float) data
       (mk_Heat_Eqn name 1000 "ellipse" [VFloat 1%float; VFloat 1%float]
          1%float 1000%float 100%float 100%float false false false None None None)
     = ([], Return (Some (Some 225.94%float, Some 91%float, Some 921%float,
                          Some 23688%float, Some 2698%float)))).
Proof.
  split.
  - intros F db self self' Hl. unfold mat_constants. rewrite Hl. reflexivity.
  - intros name [<-|[<-|[<-|[]]]]; vm_compute; reflexivity.
Qed.

(** * Further properties of the solver *)

(** ** The update in exact arithmetic *)

Section Mean.
Local Open Scope Q_scope.









End Mean.



Section Bounds.
Local Open Scope Q_scope.


End Bounds.







(** ** Fewer than two nodes *)

(** A run on fewer than two nodes never gets past its first row: with a
    negative number of nodes [np.empty] raises [ValueError]; with one
    node (or none) and at least two time samples the loop reads the
    missing neighbour [U[j, 1]] and raises [IndexError]; the only fields
    that are returned have at most one row. *)
Theorem fewer_than_two_nodes `{PyFloat F} (self : Heat_Eqn F) (k : F)
    (c rho : option F) (alphaprime dx dt : F) (n : nat) :
  time_step self k c rho = Return (alphaprime, dx, dt) ->
  arange_len (Time self) dt = Return n ->
  Number_Of_Steps self < 2 ->
  (Number_Of_Steps self < 0 -> solve self k c rho = Raise ValueError) /\
  (0 <= Number_Of_Steps self -> (2 <= n)%nat ->
   forall U, hat_function self (np_zeros n (Z.to_nat (Number_Of_Steps self))) = Return U ->
   solve self k c rho = Raise IndexError) /\
  (forall s, solve self k c rho = Return s -> (nrows (sol_U s) <= 1)%nat).
Proof.
  intros Hts Hn Hm. split; [|split].
  - intros Hneg. unfold solve. rewrite Hts. cbn [rbind]. rewrite Hn. cbn [rbind].
    unfold np_empty. destruct (Z.ltb_spec (Number_Of_Steps self) 0); [reflexivity | lia].
  - intros Hpos Hn2 U HU. unfold solve. rewrite Hts. cbn [rbind]. rewrite Hn. cbn [rbind].
    unfold np_empty. destruct (Z.ltb_spec (Number_Of_Steps self) 0); [lia|].
    cbn [rbind]. rewrite length_replicate, HU. cbn [rbind].
    destruct (hat_function_zeros _ _ _ _ HU) as (Hshape & _ & _).
    rewrite (time_loop_one_node alphaprime dx dt _ _ U n _ _ Hm Hn2 Hshape). reflexivity.
  - intros s Hs. destruct (solve_solved self k c rho s Hs) as (a & dx' & dx2 & dt' & n' & Hsolved).
    pose proof (solved_shape _ _ _ _ _ _ _ _ _ _ Hsolved) as (Hrows & _ & _).
    pose proof (solved_loop _ _ _ _ _ _ _ _ _ _ Hsolved) as Hloop.
    rewrite Hrows. destruct (decide (n' <= 1)%nat) as [Hle|Hgt]; [exact Hle|].
    assert (2 <= Number_Of_Steps self) by (apply Hloop; lia). lia.
Qed.

Lemma fewer_than_two_nodes_witness :
  solve (F := Q) (rod 1 1 6000) Scenario.K (Some Scenario.c) (Some Scenario.rho)
  = Raise IndexError.
Proof.
  assert (Hts : { p | time_step (F := Q) (rod 1 1 6000) Scenario.K (Some Scenario.c)
                        (Some Scenario.rho) = Return p }).
  { eexists. vm_compute. reflexivity. }
  destruct Hts as [[[a dx] dt] Hts].
  assert (Hn : { n | arange_len (Time (rod (F := Q) 1 1 6000)) dt = Return n /\ (2 <= n)%nat }).
  { vm_compute in Hts. injection Hts as <- <- <-. eexists. split; [vm_compute; reflexivity|].
    vm_compute. lia. }
  destruct Hn as [n [Hn Hn2]].
  refine (proj1 (proj2 (fewer_than_two_nodes (rod 1 1 6000) Scenario.K (Some Scenario.c)
            (Some Scenario.rho) a dx dt n Hts Hn _)) _ Hn2 _ eq_refl).
  - reflexivity.
  - discriminate.
Defined.

(** ** Degenerate durations, lengths and node counts, in exact arithmetic *)

Section Degenerate.
Local Open Scope Q_scope.



End Degenerate.





(** With no node at all the node spacing [xf / m] is a division by zero:
    once the specific heat and the density are there, the run raises
    [ZeroDivisionError], in exact arithmetic and in binary64. *)
Theorem zero_nodes_raise :
  (forall (self : Heat_Eqn Q) (k c rho : Q),
     Number_Of_Steps self = 0 ->
     solve self k (Some c) (Some rho) = Raise ZeroDivisionError) /\
  (forall (self : Heat_Eqn float) (k c rho : float),
     Number_Of_Steps self = 0 ->
     solve self k (Some c) (Some rho) = Raise ZeroDivisionError).
Proof.
  split; intros self k c rho Hm; unfold solve, time_step; rewrite Hm;
    cbn [number rbind]; unfold py_div at 1;
    destruct (fis_zero (fmul c rho)); reflexivity.
Qed.

Lemma zero_nodes_raise_witness :
  solve (F := float) (rod 0 1 6000) Scenario.K (Some Scenario.c) (Some Scenario.rho)
  = Raise ZeroDivisionError.
Proof.
  exact (proj2 zero_nodes_raise (rod 0 1 6000) Scenario.K Scenario.c Scenario.rho eq_refl).
Defined.

(** ** What [heateqn] does with the row it finds *)

Lemma heateqn_null_conductivity `{PyFloat F} (db : list (thermal_prop F))
    (self : Heat_Eqn F) (r : thermal_prop F) (rest : list (thermal_prop F)) :
  select_material db (lower (Material self)) = r :: rest ->
  tp_Conductivity r = None ->
  heateqn db self = ([Print an_error_occured], Return None).
Proof.
  intros Hsel Hk. unfold heateqn. rewrite (mat_constants_found db self r rest Hsel).
  cbn. rewrite Hk. reflexivity.
Qed.

(** A NULL in the table.  When the conductivity of the material is NULL,
    [heateqn] prints its error message and returns [None] without
    solving; when the conductivity is there and the specific heat or the
    density is NULL, the product [c * rho] raises [TypeError] and nothing
    is printed. *)
Theorem null_constants `{PyFloat F} (db : list (thermal_prop F)) (self : Heat_Eqn F)
    (r : thermal_prop F) (rest : list (thermal_prop F)) :
  select_material db (lower (Material self)) = r :: rest ->
  (tp_Conductivity r = None ->
   heateqn db self = ([Print an_error_occured], Return None)) /\
  (forall k, tp_Conductivity r = Some k ->
     tp_Specific_Heat r = None \/ tp_Density r = None ->
     heateqn db self = ([], Raise TypeError)).
Proof.
  intros Hsel. split.
  - exact (heateqn_null_conductivity db self r rest Hsel).
  - intros k Hk Hnull. rewrite (heateqn_found db self r rest k Hsel Hk).
    unfold solve, time_step.
    destruct (tp_Specific_Heat r) as [c|]; [|reflexivity].
    destruct (tp_Density r) as [rho|]; [|reflexivity].
    destruct Hnull; discriminate.
Qed.

Lemma null_constants_witness :
  heateqn no_conductivity (Scenario.aluminum 6000)
  = ([Print an_error_occured], Return None).
Proof.
  exact (proj1 (null_constants no_conductivity (Scenario.aluminum 6000) _ _ eq_refl) eq_refl).
Defined.

(** The three ways out of [heateqn] exclude one another: a field is
    returned only when neither [Gif] nor [Graph] is set, and then nothing
    is printed or plotted; a run that raises has plotted nothing; a run
    that plots calls one plotting method, once, as its last action and
    returns [None], and the method is [gif_maker] exactly when [Gif] is
    set, so that [Gif] wins over [Graph]. *)
Theorem heateqn_dispatch `{PyFloat F} (db : list (thermal_prop F)) (self : Heat_Eqn F) :
  (forall U, outcome (heateqn db self) = Return (Some U) ->
     output (heateqn db self) = [] /\ Gif self = false /\ Graph self = false) /\
  (forall e, outcome (heateqn db self) = Raise e ->
     forallb (fun ev => negb (is_plot ev)) (output (heateqn db self)) = true) /\
  (forall ev, In ev (output (heateqn db self)) -> is_plot ev = true ->
     output (heateqn db self) = [ev] /\
     outcome (heateqn db self) = Return None /\
     is_gif ev = Gif self /\
     (Gif self = false -> Graph self = true)).
Proof.
  destruct (select_material db (lower (Material self))) as [|r rest] eqn:Hsel.
  - rewrite (heateqn_missing db self Hsel). cbn.
    split; [discriminate|]. split; [reflexivity|].
    intros ev [<-|[<-|[<-|[]]]]; discriminate.
  - destruct (tp_Conductivity r) as [k|] eqn:Hk.
    + rewrite (heateqn_found db self r rest k Hsel Hk).
      destruct (solve self k (tp_Specific_Heat r) (tp_Density r)) as [s|e0].
      * destruct (Gif self) eqn:Hgif; [|destruct (Graph self) eqn:Hgraph]; cbn.
        -- split; [discriminate|]. split; [discriminate|].
           intros ev [<-|[]] _. repeat (split; [reflexivity|]). discriminate.
        -- split; [discriminate|]. split; [discriminate|].
           intros ev [<-|[]] _. repeat (split; [reflexivity|]). reflexivity.
        -- split; [intros U _; repeat split; reflexivity|]. split; [discriminate|].
           intros ev [].
      * cbn. split; [discriminate|]. split; [reflexivity|]. intros ev [].
    + rewrite (heateqn_null_conductivity db self r rest Hsel Hk). cbn.
      split; [discriminate|]. split; [discriminate|].
      intros ev [<-|[]]; discriminate.
Qed.

Lemma heateqn_dispatch_witness :
  exists ev,
    output (heateqn data (plotted None)) = [ev] /\
    outcome (heateqn data (plotted None)) = Return None /\
    is_gif ev = Gif (plotted None).
Proof.
  eexists. split; [vm_compute; reflexivity|].
  match goal with
  | |- _ /\ is_gif ?ev = _ =>
      destruct (proj2 (proj2 (heateqn_dispatch data (plotted None))) ev)
        as (_ & Hout & Hgif & _)
  end.
  - vm_compute. left. reflexivity.
  - reflexivity.
  - split; [exact Hout | exact Hgif].
Defined.

(** ** The table lookup, for every table *)

Section Lookup.
Context {F : Type}.



End Lookup.




(** ** [area] and the number of lengths *)

(** [area] unpacks exactly two stored lengths.  A tuple of no length, or
    of three or more, is stored as it is and [area] raises [ValueError]
    for every shape, before it looks at the shape; a tuple of one length
    is stored as a pair and [area] goes on: for a rectangle it returns
    the empty tuple (the one-element tuple times 0), for an ellipse it
    raises [TypeError]. *)
Theorem area_needs_two_lengths {F : Type} `{PyFloat F} `{PyMath F}
    (Material : string) (Number_Of_Steps : Z) (Shape : string) (lengths : list F)
    (Length Time Left_Boundary Right_Boundary : F) (Gif Graph : bool) :
  length lengths <> 2%nat ->
  exists self,
    outcome (init Material Number_Of_Steps Shape lengths Length Time Left_Boundary
               Right_Boundary Gif Graph false None None None)
    = Return self /\
    (length lengths <> 1%nat -> area self = ([], Raise ValueError)) /\
    (length lengths = 1%nat -> lower Shape = "rectangle"%string ->
     area self = ([], Return (VTuple []))) /\
    (length lengths = 1%nat -> lower Shape = "ellipse"%string ->
     area self = ([], Raise TypeError)).
Proof.
  intros H2. rewrite init_returns. cbn [outcome snd]. eexists. split; [reflexivity|].
  destruct lengths as [|a [|b [|c rest]]]; cbn [length] in *.
  - split; [reflexivity|]. split; discriminate.
  - split; [intros Hne; contradiction Hne; reflexivity|].
    split; intros _ Hs; unfold area; simpl; rewrite Hs; reflexivity.
  - contradiction H2; reflexivity.
  - split; [reflexivity|]. split; discriminate.
Qed.

Lemma area_needs_two_lengths_witness :
  exists self,
    outcome (init "Aluminum" 1000 "Rectangle" [2%float] 1%float 1000%float
               100%float 100%float false false false None None None)
    = Return self /\
    area self = ([], Return (VTuple [])).
Proof.
  destruct (area_needs_two_lengths (F := float) "Aluminum" 1000 "Rectangle"
              [2%float] 1%float 1000%float 100%float 100%float false false)
    as (self & Hinit & _ & Hrect & _).
  - discriminate.
  - exists self. split; [exact Hinit|]. apply Hrect; reflexivity.
Defined.


(** ** The width of the pulse *)

Section PulseWidth.
Local Open Scope Q_scope.





End PulseWidth.



(** ** The abscissae of the nodes *)

Section AbscissaeFacts.
Local Open Scope Q_scope.


Lemma length_range (a b : Z) : length (range a b) = Z.to_nat (b - a).
Proof. unfold range. rewrite length_map, length_seq. reflexivity. Qed.

End AbscissaeFacts.



(** ** The plotting methods *)

Section PlotFacts.
Context {F : Type} `{PyFloat F}.

Lemma pbind_pret_l {A B} (a : A) (f : A -> Plot F B) : pbind (pret a) f = f a.
Proof. unfold pbind, pret. destruct (f a). reflexivity. Qed.

Lemma pbind_assoc {A B C} (m : Plot F A) (f : A -> Plot F B) (g : B -> Plot F C) :
  pbind (pbind m f) g = pbind m (fun a => pbind (f a) g).
Proof.
  destruct m as [out [a|e]]; simpl; [|reflexivity].
  destruct (f a) as [out' [b|e]]; simpl; [|reflexivity].
  destruct (g b) as [out'' r]. rewrite app_assoc. reflexivity.
Qed.

Lemma pfor_app {A St} (l l' : list A) (body : A -> St -> Plot F St) (s : St) :
  pfor (l ++ l') body s = pbind (pfor l body s) (pfor l' body).
Proof.
  revert s. induction l as [|v l IH]; intros s; cbn [pfor app].
  - rewrite pbind_pret_l. reflexivity.
  - rewrite pbind_assoc. destruct (body v s) as [out [s'|e]]; cbn [pbind]; [|reflexivity].
    rewrite IH. reflexivity.
Qed.

(** A loop whose body makes the calls [c v] and does not fail. *)
Lemma pfor_calls {A} (l : list A) (c : A -> list (call F)) (body : A -> unit -> Plot F unit) :
  (forall v, body v tt = (c v, Return tt)) ->
  pfor l body tt = (concat (map c l), Return tt).
Proof.
  intros Hbody. induction l as [|v l IH]; cbn [pfor]; [reflexivity|].
  rewrite Hbody. cbn [pbind]. rewrite IH. reflexivity.
Qed.

Lemma get_row_lookup (U : ndarray F) (p : nat) (row : list F) :
  rows U !! p = Some row -> get_row U (Z.of_nat p) = Return row.
Proof.
  intros Hrow. unfold get_row. apply lookup_lt_Some in Hrow as Hp.
  rewrite np_index_nonneg by (unfold nrows; lia). simpl.
  unfold lookup_cell. rewrite Nat2Z.id, Hrow. reflexivity.
Qed.

Lemma range_0_S (k : nat) : range 0 (Z.of_nat (S k)) = range 0 (Z.of_nat k) ++ [Z.of_nat k].
Proof.
  replace (Z.of_nat (S k)) with (Z.of_nat k + 1) by lia. apply range_snoc. lia.
Qed.

Variable str : F -> string.
Variables (self : Heat_Eqn F) (xn : list F) (U : ndarray F) (xf Th : F).

(** The calls of [decorate]. *)
Lemma decorate_calls :
  exists t,
    decorate str self xf Th
    = ([plt_title t; plt_axis (flit 0) xf (flit 0) Th; plt_xlabel "Position (m)";
        plt_ylabel "Temperature(C)"], Return tt).
Proof. unfold decorate. destruct (Hat_Function self); eexists; reflexivity. Qed.

(** The frames of [gif_maker], one after the other. *)
Lemma gif_frames (k : nat) :
  (k <= nrows U)%nat ->
  exists tr,
    pfor (range 0 (Z.of_nat k))
      (fun p giflists =>
         pbind (perform (plt_figure 1)) (fun _ =>
         pbind (plift (get_row U p)) (fun row =>
         pbind (perform (plt_plot xn row)) (fun _ =>
         pbind (decorate str self xf Th) (fun _ =>
         let filename := frame_file p in
         let giflists := giflists ++ [filename] in
         pbind (perform (plt_savefig filename)) (fun _ =>
         pbind (perform plt_close) (fun _ =>
         pret giflists))))))) []
    = (tr, Return (map frame_file (range 0 (Z.of_nat k)))) /\
    saved tr = map frame_file (range 0 (Z.of_nat k)) /\
    plotted_rows tr = take k (rows U) /\
    axes tr = replicate k (flit 0, xf, flit 0, Th) /\
    read tr = [] /\ appended tr = [] /\ removed tr = [] /\ written tr = [].
Proof.
  induction k as [|k IH]; intros Hk.
  - exists []. simpl. repeat split; reflexivity.
  - destruct IH as (tr & Hrun & Hsaved & Hplot & Haxes & Hread & Happ & Hrem & Hwr); [lia|].
    destruct (lookup_lt_is_Some_2 (rows U) k) as [row Hrow]; [unfold nrows in Hk; lia|].
    destruct decorate_calls as [t Hdec].
    rewrite range_0_S, pfor_app, Hrun. cbn [pfor pbind].
    rewrite (get_row_lookup U k row Hrow), Hdec.
    cbn [pbind perform plift pret app]. rewrite map_app.
    eexists. split; [reflexivity|].
    rewrite (take_S_r _ _ row Hrow), replicate_S_end.
    unfold saved, plotted_rows, axes, read, appended, removed, written in *.
    rewrite !omap_app, Hsaved, Hplot, Haxes, Hread, Happ, Hrem, Hwr.
    repeat split; reflexivity.
Qed.

(** The calls of the [with] block. *)
Lemma write_gif_calls (file : string) (giflists : list string) :
  write_gif (F := F) file giflists
  = (get_writer file
       :: concat (map (fun g => [imread g; append_data g]) giflists)
       ++ map os_remove giflists ++ [writer_exit], Return tt).
Proof.
  unfold write_gif.
  rewrite (pfor_calls giflists (fun g => [imread g; append_data g]))
    by (intros; reflexivity).
  rewrite (pfor_calls giflists (fun g => [os_remove g])) by (intros; reflexivity).
  cbn. f_equal. f_equal. f_equal. f_equal.
  induction giflists as [|g l IH]; [reflexivity|]. simpl. rewrite IH. reflexivity.
Qed.

Lemma read_reads (l : list string) :
  read (F := F) (concat (map (fun g => [imread g; append_data g]) l)) = l /\
  appended (F := F) (concat (map (fun g => [imread g; append_data g]) l)) = l /\
  removed (F := F) (concat (map (fun g => [imread g; append_data g]) l)) = [] /\
  saved (F := F) (concat (map (fun g => [imread g; append_data g]) l)) = [] /\
  plotted_rows (F := F) (concat (map (fun g => [imread g; append_data g]) l)) = [] /\
  axes (F := F) (concat (map (fun g => [imread g; append_data g]) l)) = [].
Proof.
  induction l as [|g l (IH1 & IH2 & IH3 & IH4 & IH5 & IH6)]; [repeat split; reflexivity|].
  unfold read, appended, removed, saved, plotted_rows, axes in *. cbn.
  rewrite IH1, IH2, IH3, IH4, IH5, IH6. repeat split; reflexivity.
Qed.

Lemma removed_removes (l : list string) :
  removed (F := F) (map os_remove l) = l /\
  read (F := F) (map os_remove l) = [] /\
  appended (F := F) (map os_remove l) = [] /\
  saved (F := F) (map os_remove l) = [] /\
  plotted_rows (F := F) (map os_remove l) = [] /\
  axes (F := F) (map os_remove l) = [].
Proof.
  induction l as [|g l (IH1 & IH2 & IH3 & IH4 & IH5 & IH6)]; [repeat split; reflexivity|].
  unfold read, appended, removed, saved, plotted_rows, axes in *. cbn.
  rewrite IH1, IH2, IH3, IH4, IH5, IH6. repeat split; reflexivity.
Qed.

Lemma written_reads (l : list string) :
  written (F := F) (concat (map (fun g => [imread g; append_data g]) l)) = [].
Proof. induction l as [|g l IH]; [reflexivity | exact IH]. Qed.

Lemma written_removes (l : list string) :
  written (F := F) (map os_remove l) = [].
Proof. induction l as [|g l IH]; [reflexivity | exact IH]. Qed.

End PlotFacts.

Section FrameFiles.

Lemma string_length_append (s t : string) :
  String.length (String.append s t) = (String.length s + String.length t)%nat.
Proof. induction s as [|c s IH]; simpl; [reflexivity | rewrite IH; reflexivity]. Qed.

Lemma append_suffix_inj (t s1 s2 : string) :
  String.append s1 t = String.append s2 t -> s1 = s2.
Proof.
  revert s2. induction s1 as [|c s1 IH]; intros [|c2 s2] Heq.
  - reflexivity.
  - apply (f_equal String.length) in Heq.
    rewrite !string_length_append in Heq. simpl in Heq. lia.
  - apply (f_equal String.length) in Heq.
    rewrite !string_length_append in Heq. simpl in Heq. lia.
  - simpl in Heq. injection Heq as -> Heq. f_equal. apply IH. exact Heq.
Qed.

Lemma frame_files_differ (n : nat) :
  NoDup (map frame_file (range 0 (Z.of_nat n))).
Proof.
  apply NoDup_fmap_2_strong.
  - intros p q _ _ Hpq. unfold frame_file in Hpq.
    apply append_suffix_inj in Hpq. apply (inj pretty). exact Hpq.
  - unfold range. apply NoDup_fmap_2_strong.
    + intros a b _ _ Hab. lia.
    + apply NoDup_seq.
Qed.

End FrameFiles.

Section Methods.
Context {F : Type} `{PyFloat F}.
Variable str : F -> string.

Lemma gif_maker_calls (self : Heat_Eqn F) (xn : list F) (U : ndarray F) (xf Th : F)
    (frames : nat) :
  (frames <= nrows U)%nat ->
  let files := map frame_file (range 0 (Z.of_nat frames)) in
  let name :=
    String.concat ""
      [Material self; "_"; str (Left_Boundary self); "_"; str (Right_Boundary self);
       if Hat_Function self then "_HAT.gif" else ".gif"] in
  exists drawing reading,
    gif_maker str self xn U xf Th frames
    = (drawing ++ get_writer name :: reading ++ map os_remove files ++ [writer_exit],
       Return tt) /\
    saved drawing = files /\ plotted_rows drawing = take frames (rows U) /\
    axes drawing = replicate frames (flit 0, xf, flit 0, Th) /\
    read drawing = [] /\ appended drawing = [] /\ removed drawing = [] /\
    written drawing = [] /\
    read reading = files /\ appended reading = files /\ removed reading = [] /\
    saved reading = [] /\ plotted_rows reading = [] /\ axes reading = [] /\
    written reading = [].
Proof.
  intros Hframes files name.
  destruct (gif_frames str self xn U xf Th frames Hframes)
    as (tr & Hrun & Hsaved & Hplot & Haxes & Hread & Happ & Hrem & Hwr).
  destruct (read_reads (F := F) files) as (R1 & R2 & R3 & R4 & R5 & R6).
  exists tr, (concat (map (fun g => [imread g; append_data g]) files)).
  split.
  - unfold gif_maker. cbv zeta in Hrun. rewrite Hrun. cbn [pbind].
    unfold name. destruct (Hat_Function self); rewrite write_gif_calls; reflexivity.
  - repeat (split; [assumption|]). apply (written_reads (F := F)).
Qed.

End Methods.

(** [gif_maker] on a field of at least [len(t)] rows returns, and its
    frame files are transient: it saves the frames [0.png], [1.png], ...,
    one for each time sample and no two under the same name, the frame
    [p] showing row [p] of the field; it then reads each of them once
    into the GIF, in order, and removes each of them once, after the last
    one is read.  The GIF is named after the material and the two
    boundary temperatures, with [_HAT] before the extension exactly for
    a run with hat function. *)
Theorem gif_maker_frames {F : Type} `{PyFloat F} (str : F -> string)
    (self : Heat_Eqn F) (xn : list F) (U : ndarray F) (xf Th : F) (frames : nat) :
  (frames <= nrows U)%nat ->
  let run := gif_maker str self xn U xf Th frames in
  let files := map frame_file (range 0 (Z.of_nat frames)) in
  let name :=
    String.concat ""
      [Material self; "_"; str (Left_Boundary self); "_"; str (Right_Boundary self);
       if Hat_Function self then "_HAT.gif" else ".gif"] in
  ending run = Return tt /\
  length files = frames /\ NoDup files /\
  saved (calls run) = files /\
  read (calls run) = files /\
  appended (calls run) = files /\
  removed (calls run) = files /\
  written (calls run) = [name] /\
  plotted_rows (calls run) = take frames (rows U) /\
  exists before,
    calls run = before ++ map os_remove files ++ [writer_exit] /\
    removed before = [] /\ read before = files.
Proof.
  intros Hframes run files name.
  destruct (gif_maker_calls str self xn U xf Th frames Hframes)
    as (drawing & reading & Hrun & D1 & D2 & D3 & D4 & D5 & D6 & D7
        & R1 & R2 & R3 & R4 & R5 & R6 & R7).
  destruct (removed_removes (F := F) files) as (M1 & M2 & M3 & M4 & M5 & M6).
  fold files in Hrun, D1, R1, R2, M1, M2, M3, M4, M5. fold name in Hrun.
  unfold run, ending, calls. rewrite Hrun. cbn [fst snd].
  split; [reflexivity|].
  split; [unfold files; rewrite length_map, length_range; lia|].
  split; [apply frame_files_differ|].
  assert (Hsplit : forall (g : list (call F) -> list string),
            (forall l l', g (l ++ l') = g l ++ g l') ->
            g (drawing ++ get_writer name :: reading ++ map os_remove files ++ [writer_exit])
            = g drawing ++ g [get_writer name] ++ g reading ++ g (map os_remove files)
              ++ g [writer_exit]).
  { intros g Hg. rewrite Hg. f_equal.
    change (get_writer name :: reading ++ map os_remove files ++ [writer_exit])
      with ([get_writer name] ++ reading ++ map os_remove files ++ [writer_exit]).
    rewrite !Hg. reflexivity. }
  split; [rewrite (Hsplit saved) by (intros; apply omap_app);
          rewrite D1, R4, M4; cbn; apply app_nil_r|].
  split; [rewrite (Hsplit read) by (intros; apply omap_app);
          rewrite D4, R1, M2; cbn; apply app_nil_r|].
  split; [rewrite (Hsplit appended) by (intros; apply omap_app);
          rewrite D5, R2, M3; cbn; apply app_nil_r|].
  split; [rewrite (Hsplit removed) by (intros; apply omap_app);
          rewrite D6, R3, M1; cbn; apply app_nil_r|].
  split.
  { rewrite (Hsplit written) by (intros; apply omap_app). rewrite D7. cbn.
    rewrite R7, (written_removes (F := F)). reflexivity. }
  split.
  { unfold plotted_rows in *.
    change (get_writer name :: reading ++ map os_remove files ++ [writer_exit])
      with ([get_writer name] ++ reading ++ map os_remove files ++ [writer_exit]).
    rewrite !omap_app, D2, R5, M5. cbn. rewrite !app_nil_r. reflexivity. }
  exists (drawing ++ get_writer name :: reading). split.
  - rewrite <- app_assoc. reflexivity.
  - unfold removed, read in *. rewrite !omap_app. cbn. rewrite D6, R3, D4, R1.
    split; reflexivity.
Qed.

Lemma gif_maker_frames_witness :
  saved (calls (gif_maker str_100 (Scenario.aluminum 200) [1 # 6; 1 # 2; 5 # 6]%Q
                  two_rows 1%Q 100%Q 2))
  = ["0.png"; "1.png"]%string /\
  removed (calls (gif_maker str_100 (Scenario.aluminum 200) [1 # 6; 1 # 2; 5 # 6]%Q
                    two_rows 1%Q 100%Q 2))
  = ["0.png"; "1.png"]%string /\
  written (calls (gif_maker str_100 (Scenario.aluminum 200) [1 # 6; 1 # 2; 5 # 6]%Q
                    two_rows 1%Q 100%Q 2))
  = ["Aluminum_100_100.gif"]%string.
Proof.
  destruct (gif_maker_frames str_100 (Scenario.aluminum 200) [1 # 6; 1 # 2; 5 # 6]%Q
              two_rows 1%Q 100%Q 2 ltac:(vm_compute; lia))
    as (_ & _ & _ & Hsaved & _ & _ & Hremoved & Hwritten & _).
  split; [exact Hsaved|]. split; [exact Hremoved | exact Hwritten].
Defined.

Section Sketcher.
Context {F : Type} `{PyFloat F}.
Variable str : F -> string.
Variables (self : Heat_Eqn F) (xn : list F) (U : ndarray F) (xf Th : F).

(** The frames of [graph_sketcher], one after the other. *)
Lemma sketcher_frames (k : nat) :
  (k <= nrows U)%nat ->
  exists tr,
    pfor (range 0 (Z.of_nat k))
      (fun p (_ : unit) =>
         pbind (perform plt_clf) (fun _ =>
         pbind (perform (plt_figure 1)) (fun _ =>
         pbind (decorate str self xf Th) (fun _ =>
         pbind (plift (get_row U p)) (fun row =>
         pbind (perform (plt_plot xn row)) (fun _ =>
         perform plt_pause)))))) tt
    = (tr, Return tt) /\
    plotted_rows tr = take k (rows U) /\
    axes tr = replicate k (flit 0, xf, flit 0, Th) /\
    saved tr = [] /\ removed tr = [] /\ written tr = [].
Proof.
  induction k as [|k IH]; intros Hk.
  - exists []. simpl. repeat split; reflexivity.
  - destruct IH as (tr & Hrun & Hplot & Haxes & Hsaved & Hrem & Hwr); [lia|].
    destruct (lookup_lt_is_Some_2 (rows U) k) as [row Hrow]; [unfold nrows in Hk; lia|].
    destruct (decorate_calls str self xf Th) as [t Hdec].
    rewrite range_0_S, pfor_app, Hrun. cbn [pfor pbind].
    rewrite (get_row_lookup U k row Hrow), Hdec.
    cbn [pbind perform plift pret app].
    eexists. split; [reflexivity|].
    rewrite (take_S_r _ _ row Hrow), replicate_S_end.
    unfold saved, plotted_rows, axes, removed, written in *.
    rewrite !omap_app, Hsaved, Hplot, Haxes, Hrem, Hwr.
    repeat split; reflexivity.
Qed.

(** The calls of [graph_sketcher]: the decoration, the frames, and
    [plt.show()]. *)
Lemma graph_sketcher_calls (frames : nat) :
  (frames <= nrows U)%nat ->
  exists t tr,
    graph_sketcher str self xn U xf Th frames
    = ([plt_title t; plt_axis (flit 0) xf (flit 0) Th; plt_xlabel "Position (m)";
        plt_ylabel "Temperature(C)"] ++ tr ++ [plt_show], Return tt) /\
    plotted_rows tr = take frames (rows U) /\
    axes tr = replicate frames (flit 0, xf, flit 0, Th) /\
    saved tr = [] /\ removed tr = [] /\ written tr = [].
Proof.
  intros Hframes.
  destruct (sketcher_frames frames Hframes) as (tr & Hrun & Hfacts).
  destruct (decorate_calls str self xf Th) as [t Hdec].
  exists t, tr. split; [|exact Hfacts].
  unfold graph_sketcher. rewrite Hrun, Hdec. reflexivity.
Qed.

End Sketcher.

(** [graph_sketcher] on a field of at least [len(t)] rows returns: it
    draws one curve for each time sample, the curve of frame [p] being
    row [p] of the field, always on the axes [0, xf] by [0, Th]; it ends
    with [plt.show()] and touches no file. *)
Theorem graph_sketcher_frames {F : Type} `{PyFloat F} (str : F -> string)
    (self : Heat_Eqn F) (xn : list F) (U : ndarray F) (xf Th : F) (frames : nat) :
  (frames <= nrows U)%nat ->
  let run := graph_sketcher str self xn U xf Th frames in
  ending run = Return tt /\
  plotted_rows (calls run) = take frames (rows U) /\
  axes (calls run) = replicate (S frames) (flit 0, xf, flit 0, Th) /\
  last (calls run) = Some plt_show /\
  saved (calls run) = [] /\ removed (calls run) = [] /\ written (calls run) = [].
Proof.
  intros Hframes run.
  destruct (graph_sketcher_calls str self xn U xf Th frames Hframes)
    as (t & tr & Hrun & Hplot & Haxes & Hsaved & Hrem & Hwr).
  unfold run, ending, calls. rewrite Hrun. cbn [fst snd].
  split; [reflexivity|].
  split; [|split; [|split; [rewrite app_assoc; apply last_snoc|]]];
    unfold saved, plotted_rows, axes, removed, written in *;
    rewrite !omap_app, ?Hplot, ?Haxes, ?Hsaved, ?Hrem, ?Hwr; cbn;
    rewrite ?app_nil_r; repeat split; reflexivity.
Qed.

Lemma graph_sketcher_frames_witness :
  plotted_rows (calls (graph_sketcher str_100 (Scenario.aluminum 200)
                         [1 # 6; 1 # 2; 5 # 6]%Q two_rows 1%Q 100%Q 2))
  = [[0; 0; 0]; [50; 0; 50]]%Q.
Proof.
  exact (proj1 (proj2 (graph_sketcher_frames str_100 (Scenario.aluminum 200)
                         [1 # 6; 1 # 2; 5 # 6]%Q two_rows 1%Q 100%Q 2
                         ltac:(vm_compute; lia)))).
Defined.

(** From [heateqn] to the plot.  When [heateqn] calls a plotting method,
    the material was found with its conductivity and the solver has
    returned; the method then returns too, and it draws every row of the
    solved field, once and in order, each on the axes [0, Length] by
    [0, Th], where [Th] is the highest of the boundary temperatures and
    [Temperature_0]. *)
Theorem heateqn_plots_every_row {F : Type} `{PyFloat F} (str : F -> string)
    (db : list (thermal_prop F)) (self : Heat_Eqn F) (xn : list F) (ev : event F) :
  In ev (output (heateqn db self)) -> is_plot ev = true ->
  exists r rest k s,
    select_material db (lower (Material self)) = r :: rest /\
    tp_Conductivity r = Some k /\
    solve self k (tp_Specific_Heat r) (tp_Density r) = Return s /\
    ending (render str self xn ev) = Return tt /\
    plotted_rows (calls (render str self xn ev)) = rows (sol_U s) /\
    Forall (eq (flit 0, Length self, flit 0, highest_temperature self))
      (axes (calls (render str self xn ev))).
Proof.
  intros Hin Hplot.
  destruct (select_material db (lower (Material self))) as [|r rest] eqn:Hsel.
  { rewrite (heateqn_missing db self Hsel) in Hin. cbn in Hin.
    destruct Hin as [<-|[<-|[<-|[]]]]; discriminate. }
  destruct (tp_Conductivity r) as [k|] eqn:Hk.
  2:{ rewrite (heateqn_null_conductivity db self r rest Hsel Hk) in Hin. cbn in Hin.
      destruct Hin as [<-|[]]; discriminate. }
  rewrite (heateqn_found db self r rest k Hsel Hk) in Hin.
  destruct (solve self k (tp_Specific_Heat r) (tp_Density r)) as [s|e] eqn:Hs;
    [|destruct Hin].
  exists r, rest, k, s. split; [reflexivity|]. split; [exact Hk|].
  split; [exact Hs|].
  destruct (solve_solved self k _ _ s Hs) as (a & dx & dx2 & dt & n & Hsolved).
  pose proof (solved_shape _ _ _ _ _ _ _ _ _ _ Hsolved) as (Hrows & _ & _).
  pose proof (solved_n _ _ _ _ _ _ _ _ _ _ Hsolved) as Hn.
  pose proof (solved_xf _ _ _ _ _ _ _ _ _ _ Hsolved) as Hxf.
  pose proof (solved_Th _ _ _ _ _ _ _ _ _ _ Hsolved) as HTh.
  assert (Hframes : (sol_frames s <= nrows (sol_U s))%nat) by lia.
  assert (Hall : take (sol_frames s) (rows (sol_U s)) = rows (sol_U s)).
  { apply take_ge. unfold nrows in Hrows. lia. }
  destruct (Gif self); [|destruct (Graph self)]; cbn in Hin.
  - destruct Hin as [<-|[]]. cbn [render].
    destruct (gif_maker_calls str self xn (sol_U s) (sol_xf s) (sol_Th s) (sol_frames s) Hframes)
      as (drawing & reading & Hrun & _ & D2 & D3 & _ & _ & _ & _ & _ & _ & _ & _ & R5 & R6 & _).
    destruct (removed_removes (F := F) (map frame_file (range 0 (Z.of_nat (sol_frames s)))))
      as (_ & _ & _ & _ & M5 & M6).
    unfold ending, calls. rewrite Hrun. cbn [fst snd].
    split; [reflexivity|].
    unfold axes, plotted_rows in *.
    change (get_writer ?n :: ?l) with ([get_writer n] ++ l).
    rewrite !omap_app, D2, D3, R5, R6, M5, M6, Hxf, HTh, Hall. cbn [omap app].
    rewrite !app_nil_r. split; [reflexivity|]. apply Forall_replicate. reflexivity.
  - destruct Hin as [<-|[]]. cbn [render].
    destruct (graph_sketcher_calls str self xn (sol_U s) (sol_xf s) (sol_Th s)
                (sol_frames s) Hframes) as (t & tr & Hrun & Hrowsp & Haxes & _).
    unfold ending, calls. rewrite Hrun. cbn [fst snd].
    split; [reflexivity|].
    unfold axes, plotted_rows in *.
    rewrite !omap_app, Hrowsp, Haxes, Hxf, HTh, Hall. cbn [omap app].
    rewrite !app_nil_r. split; [reflexivity|].
    apply Forall_cons. split; [reflexivity|]. apply Forall_replicate. reflexivity.
  - destruct Hin.
Qed.

Lemma heateqn_plots_every_row_witness :
  exists ev,
    output (heateqn data (plotted None)) = [ev] /\
    ending (render str_100 (plotted None) [1 # 8; 3 # 8; 5 # 8; 7 # 8]%Q ev) = Return tt /\
    length (plotted_rows (calls (render str_100 (plotted None)
                                   [1 # 8; 3 # 8; 5 # 8; 7 # 8]%Q ev))) = 3%nat.
Proof.
  eexists. split; [vm_compute; reflexivity|].
  match goal with
  | |- ending (render _ _ _ ?ev) = _ /\ _ =>
      destruct (heateqn_plots_every_row str_100 data (plotted None)
                  [1 # 8; 3 # 8; 5 # 8; 7 # 8]%Q ev)
        as (r & rest & k & s & _ & _ & _ & Hend & Hrows & _)
  end.
  - vm_compute. left. reflexivity.
  - reflexivity.
  - split; [exact Hend|]. vm_compute. reflexivity.
Defined.
